(** * MulensModel: caustics of a point lens with external shear, Lens and Model

    A shallow embedding of
      - [source/MulensModel/causticspoint.py] (class [CausticsPointWithShear]),
      - [source/MulensModel/lens.py]          (class [Lens]),
      - [source/MulensModel/model.py]         (class [Model]),
    together with the properties stated about them.

    Python objects become records, attribute assignment becomes explicit
    state passing, and [raise] becomes the [Raise] outcome of [result].
    The classes the three modules use without their source being at hand
    are an interface ([ModelPy.Imports]) whose every call returns or
    raises.
    Floating-point code is written once over an interface of arithmetic
    operations ([FloatOps], [TrigOps], [ComplexOps]); the interface is
    instantiated with the real numbers (exact arithmetic) and, for the
    operations IEEE 754 fixes, with binary64 ([PrimFloat]), which is what a
    Python [float] is. *)

From Stdlib Require Import Floats.
From Stdlib Require Import ZArith QArith List Bool String Lia.
From Stdlib Require Import Reals Lra.
Import ListNotations.

Set Implicit Arguments.

(* ================================================================== *)
(** * Python outcomes *)
(* ================================================================== *)

Module Py.

(** The built-in exceptions the three modules raise, with their message.
    [RaisedIn callee e] is the exception [e] raised inside [callee], a
    class or function whose source is not at hand: it is kept apart from
    the exceptions of the [raise] statements of the modules themselves. *)
Inductive exn : Type :=
| TypeError (msg : string)
| AttributeError (msg : string)
| NotImplementedError (msg : string)
| ValueError (msg : string)
| IndexError (msg : string)
| NameError (msg : string)
| ZeroDivisionError (msg : string)
| RaisedIn (callee : string) (e : exn).

(** Outcome of a call: a value, or a raised exception. *)
Inductive result (A : Type) : Type :=
| Ok (a : A)
| Raise (e : exn).
Arguments Ok {A} a.
Arguments Raise {A} e.

Definition bind {A B} (r : result A) (k : A -> result B) : result B :=
  match r with
  | Ok a => k a
  | Raise e => Raise e
  end.

Definition is_ok {A} (r : result A) : bool :=
  match r with Ok _ => true | Raise _ => false end.

(** A call into [callee]: what it returns, or its exception marked as
    raised in there. *)
Definition inside {A} (callee : string) (r : result A) : result A :=
  match r with
  | Ok a => Ok a
  | Raise e => Raise (RaisedIn callee e)
  end.

(** The exception comes out of a callee, not out of a [raise] statement
    of the module at hand. *)
Definition raised_inside (e : exn) : bool :=
  match e with RaisedIn _ _ => true | _ => false end.

(** [for x in items: body], the loop stopping at the first exception. *)
Fixpoint for_each {A S} (body : S -> A -> result S) (items : list A)
    (st : S) : result S :=
  match items with
  | [] => Ok st
  | x :: rest =>
      match body st x with
      | Ok st => for_each body rest st
      | Raise e => Raise e
      end
  end.

(** A call of a name that is bound nowhere: looking the name up raises
    [NameError] before the argument is evaluated. *)
Definition call_unbound {A B} (name : string) (argument : A) : result B :=
  Raise (NameError ("name '" ++ name ++ "' is not defined")).

(** [x is not None] *)
Definition is_not_None {A} (o : option A) : bool :=
  match o with Some _ => true | None => false end.

End Py.

Notation "x <- c1 ;; c2" := (Py.bind c1 (fun x => c2))
  (at level 61, c1 at next level, right associativity).

(* ================================================================== *)
(** * Arithmetic interfaces *)
(* ================================================================== *)

(** Operations of Python's [float]. *)
Class FloatOps (F : Type) : Type := {
  f_zero : F;
  f_one : F;
  f_add : F -> F -> F;
  f_sub : F -> F -> F;
  f_mul : F -> F -> F;
  f_div : F -> F -> F;
  f_neg : F -> F;
  f_of_nat : nat -> F;
  (** [x == 0.]: the divisors for which [/] on Python floats raises
      [ZeroDivisionError] *)
  f_is_zero : F -> bool
}.

(** [math.cos], [math.sin] and [np.pi]. *)
Class TrigOps (F : Type) : Type := {
  f_cos : F -> F;
  f_sin : F -> F;
  f_pi : F
}.

(** Operations of [complex] / [np.complex128] over the floats [F]. *)
Class ComplexOps (F C : Type) : Type := {
  c_make : F -> F -> C;
  c_real : C -> F;
  c_imag : C -> F;
  c_of_float : F -> C;
  c_add : C -> C -> C;
  c_sub : C -> C -> C;
  c_mul : C -> C -> C;
  c_div : C -> C -> C;
  c_neg : C -> C;
  c_conj : C -> C
}.

(* ------------------------------------------------------------------ *)
(** ** Exact arithmetic: the real numbers *)

Module RealArith.

#[export] Instance R_FloatOps : FloatOps R := {|
  f_zero := 0%R;
  f_one := 1%R;
  f_add := Rplus;
  f_sub := Rminus;
  f_mul := Rmult;
  f_div := Rdiv;
  f_neg := Ropp;
  f_of_nat := INR;
  f_is_zero := fun x => if Req_dec_T x 0 then true else false
|}.

#[export] Instance R_TrigOps : TrigOps R := {|
  f_cos := cos;
  f_sin := sin;
  f_pi := PI
|}.

(** Complex numbers as pairs (real part, imaginary part). *)
Definition Cx : Type := (R * R)%type.

Definition Cx_mul (z w : Cx) : Cx :=
  (fst z * fst w - snd z * snd w, fst z * snd w + snd z * fst w)%R.

Definition Cx_norm2 (z : Cx) : R := (fst z * fst z + snd z * snd z)%R.

Definition Cx_div (z w : Cx) : Cx :=
  ((fst z * fst w + snd z * snd w) / Cx_norm2 w,
   (snd z * fst w - fst z * snd w) / Cx_norm2 w)%R.

#[export] Instance Cx_ComplexOps : ComplexOps R Cx := {|
  c_make := fun a b => (a, b);
  c_real := fst;
  c_imag := snd;
  c_of_float := fun a => (a, 0%R);
  c_add := fun z w => (fst z + fst w, snd z + snd w)%R;
  c_sub := fun z w => (fst z - fst w, snd z - snd w)%R;
  c_mul := Cx_mul;
  c_div := Cx_div;
  c_neg := fun z => (- fst z, - snd z)%R;
  c_conj := fun z => (fst z, - snd z)%R
|}.

End RealArith.

(* ------------------------------------------------------------------ *)
(** ** Machine arithmetic: IEEE 754 binary64 *)

Module Binary64.

#[export] Instance float_FloatOps : FloatOps float := {|
  f_zero := 0%float;
  f_one := 1%float;
  f_add := PrimFloat.add;
  f_sub := PrimFloat.sub;
  f_mul := PrimFloat.mul;
  f_div := PrimFloat.div;
  f_neg := PrimFloat.opp;
  f_of_nat := fun n => PrimFloat.of_uint63 (Uint63.of_Z (Z.of_nat n));
  f_is_zero := fun x => PrimFloat.eqb x 0%float
|}.

End Binary64.

(* ================================================================== *)
(** * causticspoint.py *)
(* ================================================================== *)

Module CausticsPoint.
Import Py.

(** [n_angles = int(n_points/4.+.5)]: the quotient and the sum are taken
    as rationals and [int] truncates toward zero.  For an integer
    [n_points] below 2^52 in absolute value both binary64 operations are
    exact, so this is the value Python computes. *)
Definition py_int (q : Q) : Z := Z.quot (Qnum q) (Z.pos (Qden q)).

Definition n_angles_of (n_points : Z) : Z :=
  py_int (inject_Z n_points / (4 # 1) + (5 # 10))%Q.


Section WithArith.

Context {F C : Type} {FO : FloatOps F} {TO : TrigOps F} {CO : ComplexOps F C}.

(** [np.linspace(start, stop, num, endpoint=False)]: [num] samples
    [arange(0, num) * step + start] with [step = (stop - start) / num];
    a negative [num] is refused. *)
Definition linspace (start stop : F) (num : Z) : result (list F) :=
  if (num <? 0)%Z then
    Raise (ValueError "Number of samples must be non-negative.")
  else
    let n := Z.to_nat num in
    let step := f_div (f_sub stop start) (f_of_nat n) in
    Ok (map (fun i => f_add (f_mul (f_of_nat i) step) start) (seq 0 n)).

(** [Caustics.CriticalCurve]: two lists, [x] and [y], empty at creation. *)
Record CriticalCurve : Type := {
  cc_x : list F;
  cc_y : list F
}.

Definition CriticalCurve_new : CriticalCurve := {| cc_x := []; cc_y := [] |}.

(** The object: [None] is the place holder of [__init__]. *)
Record CausticsPointWithShear : Type := {
  convergence_K : F;
  shear_G : C;
  _x : option (list F);
  _y : option (list F);
  _critical_curve : option CriticalCurve
}.

Definition __init__ (convergence_K : F) (shear_G : C)
  : CausticsPointWithShear :=
  {| convergence_K := convergence_K;
     shear_G := shear_G;
     _x := None;
     _y := None;
     _critical_curve := None |}.

(** [_solve_lens_equation]:
    [(1-K)*z - G*conj(z) - (1./conj(z))]. *)
Definition _solve_lens_equation (self : CausticsPointWithShear)
    (complex_value : C) : C :=
  let complex_conjugate := c_conj complex_value in
  c_sub
    (c_sub
       (c_mul (c_of_float (f_sub f_one (convergence_K self))) complex_value)
       (c_mul (shear_G self) complex_conjugate))
    (c_div (c_of_float f_one) complex_conjugate).

(** What the lookup of [sqrt] raises. *)
Definition sqrt_is_not_defined : exn :=
  NameError "name 'sqrt' is not defined".

(** [eiphi = np.complex(cos(phi), -sin(phi))] *)
Definition eiphi_of (phi : F) : C := c_make (f_cos phi) (f_neg (f_sin phi)).

(** [soln = sqrt(1/((1-K)*eiphi + G.conjugate()))].  The module imports
    [cos] and [sin] from [math], [numpy] as [np], [pyplot] and [Utils]; no
    statement of it binds [sqrt], which is not a builtin either. *)
Definition soln_of (self : CausticsPointWithShear) (phi : F) : result C :=
  let eiphi := eiphi_of phi in
  call_unbound "sqrt"
    (c_div (c_of_float f_one)
       (c_add
          (c_mul (c_of_float (f_sub f_one (convergence_K self))) eiphi)
          (c_conj (shear_G self)))).

(** The three Python lists the two loops append to. *)
Record store : Type := {
  st_cc : CriticalCurve;
  st_x : list F;
  st_y : list F
}.

(** Body of [for root in roots]. *)
Definition store_root (self : CausticsPointWithShear)
    (st : store) (root : C) : store :=
  let cc := {| cc_x := cc_x (st_cc st) ++ [c_real root];
               cc_y := cc_y (st_cc st) ++ [c_imag root] |} in
  let source_plane_position := _solve_lens_equation self root in
  {| st_cc := cc;
     st_x := st_x st ++ [c_real source_plane_position];
     st_y := st_y st ++ [c_imag source_plane_position] |}.

(** [roots = np.array([soln, -soln])] and the loop [for root in roots]. *)
Definition store_roots (self : CausticsPointWithShear)
    (st : store) (soln : C) : store :=
  let roots := [soln; c_neg soln] in
  fold_left (store_root self) roots st.

(** Body of [for phi in np.linspace(...)]. *)
Definition angle_step (self : CausticsPointWithShear)
    (st : store) (phi : F) : result store :=
  soln <- soln_of self phi ;;
  Ok (store_roots self st soln).

(** The literal [2.], as [1 + 1] (exact in binary64 too). *)
Definition two : F := f_add f_one f_one.

(** [_calculate(self, n_points=5000)].  The lists are reset before
    [np.linspace] is called; an exception leaves no result. *)
Definition _calculate (self : CausticsPointWithShear) (n_points : Z)
  : result CausticsPointWithShear :=
  let n_angles := n_angles_of n_points in
  let st0 := {| st_cc := CriticalCurve_new; st_x := []; st_y := [] |} in
  phis <- linspace f_zero (f_mul two f_pi) n_angles ;;
  st <- for_each (angle_step self) phis st0 ;;
  Ok {| convergence_K := convergence_K self;
        shear_G := shear_G self;
        _x := Some (st_x st);
        _y := Some (st_y st);
        _critical_curve := Some (st_cc st) |}.

(** The angle with index [i] among [n] samples of [[0, 2 pi)]. *)
Definition phi_at (n i : nat) : F :=
  f_add (f_mul (f_of_nat i)
               (f_div (f_sub (f_mul two f_pi) f_zero) (f_of_nat n)))
        f_zero.

(** The angles of [np.linspace(0., 2.*np.pi, n, endpoint=False)]. *)
Definition angles (n : nat) : list F := map (phi_at n) (seq 0 n).

End WithArith.

Arguments CriticalCurve F : clear implicits.
Arguments CausticsPointWithShear F C : clear implicits.
Arguments store F : clear implicits.

End CausticsPoint.

(* ================================================================== *)
(** * lens.py *)
(* ================================================================== *)

(** A numeric argument: a single value, a Python list or a numpy array. *)
Inductive num (F : Type) : Type :=
| Scalar (x : F)
| PyList (l : list F)
| NdArray (l : list F).
Arguments Scalar {F} x.
Arguments PyList {F} l.
Arguments NdArray {F} l.

Module LensPy.
Import Py.

Section WithArith.

Context {F : Type} {FO : FloatOps F}.

(** What [_calculate_caustics] hands back, when it hands back anything. *)
Variable Caustic : Type.

(** The attributes of a [Lens].  [_caustic] is always bound ([None] is
    Python's [None]); for every other attribute [None] means that the
    attribute has not been assigned, so that reading it raises
    [AttributeError]. *)
Record Lens : Type := {
  _caustic : option Caustic;
  _epsilon : option (list F);
  _total_mass : option (num F);
  _s : option (num F);
  _distance : option F;
  _a_proj : option F
}.

Definition set_caustic (v : option Caustic) (self : Lens) : Lens :=
  {| _caustic := v; _epsilon := _epsilon self;
     _total_mass := _total_mass self; _s := _s self;
     _distance := _distance self; _a_proj := _a_proj self |}.

Definition set_epsilon (v : list F) (self : Lens) : Lens :=
  {| _caustic := _caustic self; _epsilon := Some v;
     _total_mass := _total_mass self; _s := _s self;
     _distance := _distance self; _a_proj := _a_proj self |}.

Definition set_total_mass (v : num F) (self : Lens) : Lens :=
  {| _caustic := _caustic self; _epsilon := _epsilon self;
     _total_mass := Some v; _s := _s self;
     _distance := _distance self; _a_proj := _a_proj self |}.

Definition set_distance (v : F) (self : Lens) : Lens :=
  {| _caustic := _caustic self; _epsilon := _epsilon self;
     _total_mass := _total_mass self; _s := _s self;
     _distance := Some v; _a_proj := _a_proj self |}.

Definition set_a_proj (v : F) (self : Lens) : Lens :=
  {| _caustic := _caustic self; _epsilon := _epsilon self;
     _total_mass := _total_mass self; _s := _s self;
     _distance := _distance self; _a_proj := Some v |}.

(** [np.insert(new_q, 0, 1.)]: the flattened input with [1.] in front. *)
Definition np_insert0 (a : num F) (v : F) : list F :=
  match a with
  | Scalar x => [v; x]
  | PyList l => v :: l
  | NdArray l => v :: l
  end.

(** [np.sum]: the elements added from left to right, starting from
    zero.  (For the two-element arrays of a binary lens every order of
    summation gives the same value.) *)
Definition np_sum (l : list F) : F := fold_left f_add l f_zero.

(** [m * k] for the numpy scalar [k = np.sum(new_q)]: the product of a
    sequence with a numpy scalar is taken element by element. *)
Definition num_scale (m : num F) (k : F) : num F :=
  match m with
  | Scalar x => Scalar (f_mul x k)
  | PyList l | NdArray l => NdArray (map (fun x => f_mul x k) l)
  end.

(** [Lens.q], setter.  [new_q] is rebound to the array with the leading
    [1.] before the sizes are compared, and [self._total_mass] may be
    unbound, in which case the [AttributeError] is caught. *)
Definition q_setter (new_q : num F) (self : Lens) : Lens :=
  let new_q := np_insert0 new_q f_one in
  let epsilon := map (fun x => f_div x (np_sum new_q)) new_q in
  let self := set_epsilon epsilon self in
  if (Z.of_nat (List.length new_q)
      =? Z.of_nat (List.length epsilon) - 1)%Z then
    self
  else
    match _total_mass self with
    | Some m => set_total_mass (num_scale m (np_sum new_q)) self
    | None => self
    end.

(** [Lens.q], getter: [self._epsilon[1:] / self._epsilon[0]]. *)
Definition q (self : Lens) : result (list F) :=
  match _epsilon self with
  | None => Raise (AttributeError "'Lens' object has no attribute '_epsilon'")
  | Some epsilon =>
      if (1 <? List.length epsilon)%nat then
        Ok (map (fun e => f_div e (nth 0 epsilon f_zero)) (skipn 1 epsilon))
      else
        Raise (AttributeError "Lens has only one body")
  end.

(** [Lens.s], setter and getter. *)
Definition s_setter (new_s : num F) (self : Lens) : Lens :=
  {| _caustic := _caustic self; _epsilon := _epsilon self;
     _total_mass := _total_mass self; _s := Some new_s;
     _distance := _distance self; _a_proj := _a_proj self |}.

Definition s (self : Lens) : result (num F) :=
  match _s self with
  | Some v => Ok v
  | None => Raise (AttributeError "'Lens' object has no attribute '_s'")
  end.

(** [Lens.total_mass], getter. *)
Definition total_mass (self : Lens) : result (num F) :=
  match _total_mass self with
  | Some v => Ok v
  | None =>
      Raise (AttributeError "'Lens' object has no attribute '_total_mass'")
  end.

(** [_set_single_mass] *)
Definition _set_single_mass (new_mass : F) (self : Lens) : Lens :=
  set_epsilon [f_one] (set_total_mass (Scalar new_mass) self).

(** [mass_1*(1.+q)] *)
Definition primary_times_one_plus_q (mass_1 : F) (q : num F)
  : result (num F) :=
  match q with
  | Scalar x => Ok (Scalar (f_mul mass_1 (f_add f_one x)))
  | PyList _ =>
      Raise (TypeError "unsupported operand type(s) for +: 'float' and 'list'")
  | NdArray l => Ok (NdArray (map (fun x => f_mul mass_1 (f_add f_one x)) l))
  end.

(** The keyword arguments of [Lens.__init__]; [None] is the default. *)
Record LensArgs : Type := {
  arg_total_mass : option F;
  arg_mass : option F;
  arg_mass_1 : option F;
  arg_mass_2 : option F;
  arg_a_proj : option F;
  arg_distance : option F;
  arg_q : option (num F);
  arg_s : option (num F);
  arg_epsilon : option (list F)
}.

Definition when {A} (o : option A) (k : A -> Lens -> result Lens)
    (self : Lens) : result Lens :=
  match o with
  | Some a => k a self
  | None => Ok self
  end.

(** [Lens.__init__].  The masses are Python floats: the two quotients
    by the total mass raise [ZeroDivisionError] when it is zero. *)
Definition __init__ (a : LensArgs) : result Lens :=
  let self := {| _caustic := None; _epsilon := None; _total_mass := None;
                 _s := None; _distance := None; _a_proj := None |} in
  self <- when (arg_q a) (fun q self =>
            let self := q_setter q self in
            self <- match arg_s a with
                    | Some s => Ok (s_setter s self)
                    | None => Raise (AttributeError
                        "if q is defined, s must also be defined.")
                    end ;;
            when (arg_mass_1 a) (fun mass_1 self =>
              m <- primary_times_one_plus_q mass_1 q ;;
              Ok (set_total_mass m self)) self) self ;;
  self <- when (arg_total_mass a) (fun m self =>
            Ok (set_total_mass (Scalar m) self)) self ;;
  self <- when (arg_epsilon a) (fun e self => Ok (set_epsilon e self)) self ;;
  self <- match arg_mass_2 a with
          | Some mass_2 =>
              match arg_mass_1 a with
              | None => Raise (TypeError
                  "unsupported operand type(s) for +: 'NoneType' and 'float'")
              | Some mass_1 =>
                  let total := f_add mass_1 mass_2 in
                  let self := set_total_mass (Scalar total) self in
                  if f_is_zero total then
                    Raise (ZeroDivisionError "float division by zero")
                  else
                    Ok (set_epsilon
                          [f_div mass_1 total; f_div mass_2 total] self)
              end
          | None =>
              let self :=
                match arg_mass_1 a, arg_q a with
                | Some mass_1, None => _set_single_mass mass_1 self
                | _, _ => self
                end in
              when (arg_mass a) (fun mass self =>
                Ok (_set_single_mass mass self)) self
          end ;;
  self <- when (arg_distance a) (fun d self => Ok (set_distance d self)) self ;;
  when (arg_a_proj a) (fun p self => Ok (set_a_proj p self)) self.

(** [Lens(q=q, s=s)]: the standard combination (s, q). *)
Definition args_q_s (q s : F) : LensArgs :=
  {| arg_total_mass := None; arg_mass := None; arg_mass_1 := None;
     arg_mass_2 := None; arg_a_proj := None; arg_distance := None;
     arg_q := Some (Scalar q); arg_s := Some (Scalar s);
     arg_epsilon := None |}.

(** [Lens(mass=mass)]: a lens of one body. *)
Definition args_mass (mass : F) : LensArgs :=
  {| arg_total_mass := None; arg_mass := Some mass; arg_mass_1 := None;
     arg_mass_2 := None; arg_a_proj := None; arg_distance := None;
     arg_q := None; arg_s := None; arg_epsilon := None |}.

(** The method [_calculate_caustics] the getter calls on [self]. *)
Variable calculate_caustics : Lens -> option Caustic.

(** [Lens.caustic], getter.  Returns the value read, the object after
    the access, and how many times the access called
    [_calculate_caustics]. *)
Definition caustic (self : Lens) : option Caustic * Lens * nat :=
  match _caustic self with
  | None =>
      let self := set_caustic (calculate_caustics self) self in
      (_caustic self, self, 1%nat)
  | Some c => (Some c, self, 0%nat)
  end.

(** [np.sum] of the array [[1., q]] that the [q] setter builds. *)
Definition one_plus (q : F) : F := f_add (f_add f_zero f_one) q.

(** Two accesses in a row: same value, and one computation in all. *)
Definition memoized_once (self : Lens) : Prop :=
  let '(v1, self1, n1) := caustic self in
  let '(v2, _, n2) := caustic self1 in
  v2 = v1 /\ (n1 + n2 = 1)%nat.

(** An access, a change of [q], an access: the last one computes anew. *)
Definition invalidated_by_q (new_q : num F) (self : Lens) : Prop :=
  let '(_, self1, _) := caustic self in
  let self2 := q_setter new_q self1 in
  let '(v, _, n) := caustic self2 in
  n = 1%nat /\ v = calculate_caustics self2.

End WithArith.

(** [Lens._calculate_caustics]: the body is [pass], the call returns
    [None]. *)
Definition _calculate_caustics {F Caustic : Type}
    (self : @Lens F Caustic) : option Caustic := None.

End LensPy.

(* ================================================================== *)
(** * model.py *)
(* ================================================================== *)

Module ModelPy.
Import Py.

(** A Python value as [Model.magnification] inspects it with
    [isinstance]. *)
Inductive pyval (F : Type) : Type :=
| VNone
| VBool (b : bool)
| VInt (z : Z)
| VFloat (x : F)
| VStr (s : string)
| VTuple (l : list F)
| VList (l : list F)
| VNdarray (l : list F).
Arguments VNone {F}.
Arguments VBool {F} b.
Arguments VInt {F} z.
Arguments VFloat {F} x.
Arguments VStr {F} s.
Arguments VTuple {F} l.
Arguments VList {F} l.
Arguments VNdarray {F} l.

(** A Python object as [Model.__init__] may receive it for [q] or
    [pi_E]: [None], a number, a string, a list or a tuple of objects, a
    numpy array (its items are numbers, or the sub-arrays of an array of
    several dimensions), or a numpy array of no dimension. *)
#[local] Unset Elimination Schemes.
Inductive pyobj (F : Type) : Type :=
| ONone
| OFloat (x : F)
| OStr (s : string)
| OList (items : list (pyobj F))
| OTuple (items : list (pyobj F))
| ONdarray (items : list (pyobj F))
| ONdarray0 (x : F).
#[local] Set Elimination Schemes.
Arguments ONone {F}.
Arguments OFloat {F} x.
Arguments OStr {F} s.
Arguments OList {F} items.
Arguments OTuple {F} items.
Arguments ONdarray {F} items.
Arguments ONdarray0 {F} x.

(** [x is not None] *)
Definition given {F} (x : pyobj F) : bool :=
  match x with ONone => false | _ => true end.

(** An entry of the list given to [set_magnification_methods]. *)
Inductive method_token (F : Type) : Type :=
| Epoch (t : F)
| Method (name : string).
Arguments Epoch {F} t.
Arguments Method {F} name.

(** The dictionary [self._parallax]. *)
Record Parallax : Type := {
  earth_orbital : bool;
  satellite : bool;
  topocentric : bool
}.

(** The collaborators [Model.magnification] calls, in call order. *)
Inductive event : Type :=
| CallSatelliteSkyCoord
| CallMagnificationCurve.

(** Modelled from the spec: the error kinds of section 7.  The source
    raises Python's built-in exceptions; [error_kind] gives the kind the
    two exceptions of the parameter checks stand for. *)
Inductive ErrorKind : Type :=
| InvalidParameter
| UnsupportedConfiguration
| InvalidInput
| UnknownMethod
| NumericNonConvergence.

Fixpoint error_kind (e : exn) : option ErrorKind :=
  match e with
  | AttributeError _ => Some InvalidParameter
  | NotImplementedError _ => Some UnsupportedConfiguration
  | RaisedIn _ e => error_kind e
  | _ => None
  end.

(** The attributes of a [ModelParameters] object that [Model] assigns
    and reads through the object. *)
Inductive attribute : Type :=
| Attr_t_0 | Attr_t_E | Attr_rho | Attr_s | Attr_q | Attr_alpha
| Attr_pi_E | Attr_pi_E_N | Attr_pi_E_E.

(** A [ModelParameters] object (modelparameters.py is not among the
    sources): the attribute [_u_0], which [model.py] reads and assigns by
    that name ([None]: not bound), and what the object keeps behind its
    other attributes, of a type [S] that is left open. *)
Record ModelParameters (F S : Type) : Type := {
  _u_0 : option (option F);
  properties : S
}.

(** The arguments [set_parameters] hands to [ModelParameters(...)]. *)
Record ParameterArgs (F : Type) : Type := {
  pa_t_0 : option F;
  pa_u_0 : option F;
  pa_t_E : option F;
  pa_rho : option F;
  pa_s : option F;
  pa_q : pyobj F;
  pa_alpha : option F;
  pa_pi_E : pyobj F;
  pa_pi_E_N : option F;
  pa_pi_E_E : option F;
  pa_pi_E_ref : option string
}.

(** The classes [model.py] imports whose source is not at hand
    ([ModelParameters], [MulensParallaxVector], [SkyCoord],
    [LimbDarkeningCoeffs]), as the calls [Model.__init__], the properties
    of [Model] and [set_parameters] make on them.  Every call returns or
    raises; nothing else is known of it. *)
Class Imports (F : Type) : Type := {
  Properties : Type;
  ParallaxVector : Type;
  SkyCoord : Type;
  (** [ModelParameters()] *)
  ModelParameters_new : result (ModelParameters F Properties);
  (** [ModelParameters(t_0=.., u_0=.., ..., pi_E_ref=..)] *)
  ModelParameters_of :
    ParameterArgs F -> result (ModelParameters F Properties);
  (** [parameters.name = value] *)
  setattr : attribute -> pyobj F -> ModelParameters F Properties ->
            result (ModelParameters F Properties);
  (** [parameters.name], for an attribute that holds a [float] or
      [None] *)
  getattr : attribute -> ModelParameters F Properties ->
            result (option F);
  (** [MulensParallaxVector(pi_E, ref=ref)] *)
  MulensParallaxVector : pyobj F -> string -> result ParallaxVector;
  (** [MulensParallaxVector(pi_E_1=n, pi_E_2=e, ref=ref)] *)
  MulensParallaxVector_1_2 : F -> F -> string -> result ParallaxVector;
  (** [parameters.pi_E = vector] *)
  setattr_pi_E : ParallaxVector -> ModelParameters F Properties ->
                 result (ModelParameters F Properties);
  (** [SkyCoord(coords, unit=(u.hourangle, u.deg))] *)
  SkyCoord_of : string -> result SkyCoord;
  (** [SkyCoord(ra, dec, unit=(u.hourangle, u.deg))] *)
  SkyCoord_ra_dec : string -> string -> result SkyCoord;
  (** [LimbDarkeningCoeffs()]: whether the constructor returns *)
  LimbDarkeningCoeffs_new : result unit
}.

Section WithImports.

Context {F : Type} {I : Imports F}.

Abbreviation Parameters := (ModelParameters F Properties).

(** The [coords] argument: a [SkyCoord] or a string to build one from. *)
Inductive coords_arg : Type :=
| CoordsSkyCoord (c : SkyCoord)
| CoordsText (text : string).

(** The [parameters] argument: left out, a [ModelParameters] object, or
    an object of another class. *)
Inductive parameters_arg : Type :=
| NoParameters
| TheParameters (p : Parameters)
| NotParameters.

(** The attributes of a [Model] that the parameter, parallax and
    magnification code touches (plot properties, limb-darkening
    coefficients and datasets are left out). *)
Record Model : Type := {
  _parameters : Parameters;
  _t_0_par : option F;
  _coords : option SkyCoord;
  ephemerides_file : option string;
  _parallax : Parallax;
  _default_magnification_method : string;
  _methods : option (list (method_token F))
}.

Definition with_parameters (p : Parameters) (self : Model) : Model :=
  {| _parameters := p; _t_0_par := _t_0_par self; _coords := _coords self;
     ephemerides_file := ephemerides_file self;
     _parallax := _parallax self;
     _default_magnification_method := _default_magnification_method self;
     _methods := _methods self |}.

(* ---------------------------------------------------------------- *)
(** ** Properties *)

(** The setters of [t_0], [t_E], [rho], [pi_E], [pi_E_N], [pi_E_E], [s],
    [q] and [alpha]: [self._parameters.name = value]. *)
Definition set_property (name : attribute) (value : pyobj F)
    (self : Model) : result Model :=
  p <- inside "ModelParameters" (setattr name value (_parameters self)) ;;
  Ok (with_parameters p self).

Definition set_t_0 := set_property Attr_t_0.
Definition set_t_E := set_property Attr_t_E.
Definition set_rho := set_property Attr_rho.
Definition set_pi_E := set_property Attr_pi_E.
Definition set_pi_E_N := set_property Attr_pi_E_N.
Definition set_pi_E_E := set_property Attr_pi_E_E.
Definition set_s := set_property Attr_s.
Definition set_q := set_property Attr_q.
Definition set_alpha := set_property Attr_alpha.

(** The getters of the attributes that hold a float:
    [return self._parameters.name]. *)
Definition get_property (name : attribute) (self : Model)
  : result (option F) :=
  inside "ModelParameters" (getattr name (_parameters self)).

Definition get_t_0 := get_property Attr_t_0.
Definition get_t_E := get_property Attr_t_E.
Definition get_rho := get_property Attr_rho.
Definition get_pi_E_N := get_property Attr_pi_E_N.
Definition get_pi_E_E := get_property Attr_pi_E_E.
Definition get_s := get_property Attr_s.
Definition get_alpha := get_property Attr_alpha.

(** [u_0]: [self._parameters._u_0 = value] and
    [return self._parameters._u_0]. *)
Definition assign_u_0 (value : option F) (p : Parameters) : Parameters :=
  {| _u_0 := Some value; properties := properties p |}.

Definition set_u_0 (value : option F) (self : Model) : Model :=
  with_parameters (assign_u_0 value (_parameters self)) self.

Definition get_u_0 (self : Model) : result (option F) :=
  match _u_0 (_parameters self) with
  | Some value => Ok value
  | None =>
      Raise (AttributeError
               "'ModelParameters' object has no attribute '_u_0'")
  end.

(** [t_0_par] lives on the model itself. *)
Definition set_t_0_par (value : option F) (self : Model) : Model :=
  {| _parameters := _parameters self; _t_0_par := value;
     _coords := _coords self; ephemerides_file := ephemerides_file self;
     _parallax := _parallax self;
     _default_magnification_method := _default_magnification_method self;
     _methods := _methods self |}.

Definition get_t_0_par (self : Model) : option F := _t_0_par self.

Definition parameters (self : Model) : Parameters := _parameters self.

(** [Model.set_parameters]: a new [ModelParameters] object built from the
    arguments replaces the old one. *)
Definition set_parameters (args : ParameterArgs F) (self : Model)
  : result Model :=
  p <- inside "ModelParameters" (ModelParameters_of args) ;;
  Ok (with_parameters p self).

(* ---------------------------------------------------------------- *)
(** ** [Model.__init__] *)

(** The keyword arguments of [Model.__init__], typed as documented;
    [None] is the default.  [arg_q] and [arg_pi_E] are any object,
    [ONone] for [None]. *)
Record ModelArgs : Type := {
  arg_parameters : parameters_arg;
  arg_t_0 : option F;
  arg_u_0 : option F;
  arg_t_E : option F;
  arg_rho : option F;
  arg_s : option F;
  arg_q : pyobj F;
  arg_alpha : option F;
  arg_pi_E : pyobj F;
  arg_pi_E_N : option F;
  arg_pi_E_E : option F;
  arg_pi_E_ref : option string;
  arg_t_0_par : option F;
  arg_coords : option coords_arg;
  arg_ra : option string;
  arg_dec : option string;
  arg_ephemerides_file : option string
}.

Definition parameters_msg : string :=
  "If specified, parameters must be a ModelParameters object.".
Definition sqa_msg : string :=
  "If one of (s, q, alpha) is specified, all three must be specified.".
Definition too_many_q_msg : string :=
  "Too many q. Does not support more than 2 bodies.".
Definition par_msg : string :=
  "Must specify both or neither of pi_E_N and pi_E_E".
Definition coords_msg : string :=
  "Must specify both or neither of ra and dec".

(** Lines 70-76: the parameter object of the model. *)
Definition init_parameters (a : ModelArgs) : result Parameters :=
  match arg_parameters a with
  | TheParameters p => Ok p
  | NoParameters => inside "ModelParameters" ModelParameters_new
  | NotParameters => Raise (TypeError parameters_msg)
  end.

(** [if x is not None: self.name = x] *)
Definition assign (name : attribute) (x : option F) (p : Parameters)
  : result Parameters :=
  match x with
  | Some v => inside "ModelParameters" (setattr name (OFloat v) p)
  | None => Ok p
  end.

(** Lines 70-88: the parameter object, then [t_0], [u_0], [t_E], [rho]
    and [s]. *)
Definition init_before_q (a : ModelArgs) : result Parameters :=
  p <- init_parameters a ;;
  p <- assign Attr_t_0 (arg_t_0 a) p ;;
  let p := match arg_u_0 a with
           | Some v => assign_u_0 (Some v) p
           | None => p
           end in
  p <- assign Attr_t_E (arg_t_E a) p ;;
  p <- assign Attr_rho (arg_rho a) p ;;
  assign Attr_s (arg_s a) p.

(** Lines 91-96: a list or an array of more than one item is refused,
    and one of at most one item is replaced by [q[0]]; anything else is
    left as it is. *)
Definition unpack_q (q : pyobj F) : result (pyobj F) :=
  match q with
  | OList items =>
      if (1 <? List.length items)%nat then
        Raise (NotImplementedError too_many_q_msg)
      else
        match items with
        | x :: _ => Ok x
        | [] => Raise (IndexError "list index out of range")
        end
  | ONdarray items =>
      if (1 <? List.length items)%nat then
        Raise (NotImplementedError too_many_q_msg)
      else
        match items with
        | x :: _ => Ok x
        | [] =>
            Raise (IndexError
                     "index 0 is out of bounds for axis 0 with size 0")
        end
  | ONdarray0 _ => Raise (TypeError "len() of unsized object")
  | _ => Ok q
  end.

(** Lines 90-97: the handling of [q]; the value [q] is left bound to,
    and the parameter object. *)
Definition init_q (a : ModelArgs) (p : Parameters)
  : result (pyobj F * Parameters) :=
  if given (arg_q a) then
    q <- unpack_q (arg_q a) ;;
    p <- inside "ModelParameters" (setattr Attr_q q p) ;;
    Ok (q, p)
  else Ok (ONone, p).

(** Lines 70-100: all the assignments of [t_0], ..., [alpha]; the value
    [q] is left bound to, and the parameter object. *)
Definition init_assignments (a : ModelArgs)
  : result (pyobj F * Parameters) :=
  p <- init_before_q a ;;
  qp <- init_q a p ;;
  let '(q, p) := qp in
  p <- assign Attr_alpha (arg_alpha a) p ;;
  Ok (q, p).

(** Lines 102-105: the check that [s], [q] and [alpha] come together. *)
Definition check_s_q_alpha (s : option F) (q : pyobj F)
    (alpha : option F) : result unit :=
  if is_not_None s || given q || is_not_None alpha then
    if negb (is_not_None s) || negb (given q)
       || negb (is_not_None alpha) then
      Raise (AttributeError sqa_msg)
    else Ok tt
  else Ok tt.

(** Lines 109-127: the parallax. *)
Definition init_parallax (a : ModelArgs) (p : Parameters)
  : result Parameters :=
  p <- (if given (arg_pi_E a) then
          match arg_pi_E_ref a with
          | None =>
              inside "ModelParameters" (setattr Attr_pi_E (arg_pi_E a) p)
          | Some ref =>
              v <- inside "MulensParallaxVector"
                     (MulensParallaxVector (arg_pi_E a) ref) ;;
              inside "ModelParameters" (setattr_pi_E v p)
          end
        else Ok p) ;;
  match arg_pi_E_N a with
  | Some n =>
      match arg_pi_E_E a with
      | Some e =>
          match arg_pi_E_ref a with
          | None =>
              p <- inside "ModelParameters"
                     (setattr Attr_pi_E_N (OFloat n) p) ;;
              inside "ModelParameters" (setattr Attr_pi_E_E (OFloat e) p)
          | Some ref =>
              v <- inside "MulensParallaxVector"
                     (MulensParallaxVector_1_2 n e ref) ;;
              inside "ModelParameters" (setattr_pi_E v p)
          end
      | None => Raise (AttributeError par_msg)
      end
  | None =>
      match arg_pi_E_E a with
      | Some _ => Raise (AttributeError par_msg)
      | None => Ok p
      end
  end.

(** Lines 130-146: the coordinates. *)
Definition init_coords (a : ModelArgs) : result (option SkyCoord) :=
  coords <- match arg_coords a with
            | Some (CoordsSkyCoord c) => Ok (Some c)
            | Some (CoordsText text) =>
                c <- inside "SkyCoord" (SkyCoord_of text) ;; Ok (Some c)
            | None => Ok None
            end ;;
  match arg_ra a with
  | Some ra =>
      match arg_dec a with
      | Some dec =>
          c <- inside "SkyCoord" (SkyCoord_ra_dec ra dec) ;; Ok (Some c)
      | None => Raise (AttributeError coords_msg)
      end
  | None =>
      match arg_ra a with
      | Some _ => Raise (AttributeError coords_msg)
      | None => Ok coords
      end
  end.

(** [Model.__init__] *)
Definition __init__ (a : ModelArgs) : result Model :=
  qp <- init_assignments a ;;
  let '(q, p) := qp in
  _ <- check_s_q_alpha (arg_s a) q (arg_alpha a) ;;
  p <- init_parallax a p ;;
  coords <- init_coords a ;;
  _ <- inside "LimbDarkeningCoeffs" LimbDarkeningCoeffs_new ;;
  Ok {| _parameters := p;
        _t_0_par := arg_t_0_par a;
        _coords := coords;
        ephemerides_file := arg_ephemerides_file a;
        _parallax := {| earth_orbital := true; satellite := true;
                        topocentric := true |};
        _default_magnification_method := "point_source";
        _methods := None |}.

(** [Model()] with every argument left at its default. *)
Definition no_args : ModelArgs :=
  {| arg_parameters := NoParameters; arg_t_0 := None; arg_u_0 := None;
     arg_t_E := None; arg_rho := None; arg_s := None; arg_q := ONone;
     arg_alpha := None; arg_pi_E := ONone; arg_pi_E_N := None;
     arg_pi_E_E := None; arg_pi_E_ref := None; arg_t_0_par := None;
     arg_coords := None; arg_ra := None; arg_dec := None;
     arg_ephemerides_file := None |}.

(** [Model(t_0=.., u_0=.., t_E=.., s=.., q=.., alpha=..)] *)
Definition args_of (t_0 u_0 t_E s : option F) (q : pyobj F)
    (alpha : option F) : ModelArgs :=
  {| arg_parameters := NoParameters; arg_t_0 := t_0; arg_u_0 := u_0;
     arg_t_E := t_E; arg_rho := None; arg_s := s; arg_q := q;
     arg_alpha := alpha; arg_pi_E := ONone; arg_pi_E_N := None;
     arg_pi_E_E := None; arg_pi_E_ref := None; arg_t_0_par := None;
     arg_coords := None; arg_ra := None; arg_dec := None;
     arg_ephemerides_file := None |}.

(** [Model(parameters=p, alpha=alpha)] *)
Definition args_parameters (p : Parameters) (alpha : option F)
  : ModelArgs :=
  {| arg_parameters := TheParameters p; arg_t_0 := None; arg_u_0 := None;
     arg_t_E := None; arg_rho := None; arg_s := None; arg_q := ONone;
     arg_alpha := alpha; arg_pi_E := ONone; arg_pi_E_N := None;
     arg_pi_E_E := None; arg_pi_E_ref := None; arg_t_0_par := None;
     arg_coords := None; arg_ra := None; arg_dec := None;
     arg_ephemerides_file := None |}.

(** The arguments with [q] replaced. *)
Definition with_arg_q (q : pyobj F) (a : ModelArgs) : ModelArgs :=
  {| arg_parameters := arg_parameters a; arg_t_0 := arg_t_0 a;
     arg_u_0 := arg_u_0 a; arg_t_E := arg_t_E a; arg_rho := arg_rho a;
     arg_s := arg_s a; arg_q := q; arg_alpha := arg_alpha a;
     arg_pi_E := arg_pi_E a; arg_pi_E_N := arg_pi_E_N a;
     arg_pi_E_E := arg_pi_E_E a; arg_pi_E_ref := arg_pi_E_ref a;
     arg_t_0_par := arg_t_0_par a; arg_coords := arg_coords a;
     arg_ra := arg_ra a; arg_dec := arg_dec a;
     arg_ephemerides_file := arg_ephemerides_file a |}.

(** The arguments with [pi_E_N] replaced. *)
Definition with_arg_pi_E_N (v : option F) (a : ModelArgs) : ModelArgs :=
  {| arg_parameters := arg_parameters a; arg_t_0 := arg_t_0 a;
     arg_u_0 := arg_u_0 a; arg_t_E := arg_t_E a; arg_rho := arg_rho a;
     arg_s := arg_s a; arg_q := arg_q a; arg_alpha := arg_alpha a;
     arg_pi_E := arg_pi_E a; arg_pi_E_N := v;
     arg_pi_E_E := arg_pi_E_E a; arg_pi_E_ref := arg_pi_E_ref a;
     arg_t_0_par := arg_t_0_par a; arg_coords := arg_coords a;
     arg_ra := arg_ra a; arg_dec := arg_dec a;
     arg_ephemerides_file := arg_ephemerides_file a |}.

(** [isinstance(q, (list, np.ndarray))] *)
Definition is_list_or_array (q : pyobj F) : bool :=
  match q with
  | OList _ | ONdarray _ | ONdarray0 _ => true
  | _ => false
  end.

(** Some but not all of [s], [q], [alpha] are given. *)
Definition some_but_not_all (s : option F) (q : pyobj F)
    (alpha : option F) : bool :=
  (is_not_None s || given q || is_not_None alpha)
  && negb (is_not_None s && given q && is_not_None alpha).

(* ---------------------------------------------------------------- *)
(** ** [Model.magnification] *)

(** What [SatelliteSkyCoord(...).get_satellite_coords] returns. *)
Variable SatCoords : Type.

(** [SatelliteSkyCoord(ephemerides_file=f).get_satellite_coords(times)]
    (satelliteskycoord.py is not among the sources). *)
Variable satellite_skycoords_get : string -> list F -> result SatCoords.

(** [MagnificationCurve(time, parameters=.., parallax=.., t_0_par=..,
    coords=.., satellite_skycoord=.., gamma=..)], followed by
    [set_magnification_methods(methods, default)] and the read of
    [.magnification] (magnificationcurve.py is not among the sources). *)
Variable magnification_curve :
  list F -> Parameters -> Parallax -> option F -> option SkyCoord ->
  option SatCoords -> F -> option (list (method_token F)) -> string ->
  result (list F).

(** The type check at the head of [magnification]: the array the rest of
    the method works on. *)
Definition time_as_array (time : pyval F) : result (list F) :=
  match time with
  | VNdarray a => Ok a
  | VFloat x => Ok [x]
  | VList l => Ok l
  | _ => Raise (TypeError "time must be a float, list, or np.ndarray")
  end.

(** [Model.get_satellite_coords] *)
Definition get_satellite_coords (self : Model) (times : list F)
  : list event * result (option SatCoords) :=
  match ephemerides_file self with
  | None => ([], Ok None)
  | Some f =>
      ([CallSatelliteSkyCoord],
       c <- satellite_skycoords_get f times ;; Ok (Some c))
  end.

(** [Model.magnification]: the collaborators called, in order, and the
    outcome. *)
Definition magnification (self : Model) (time : pyval F)
    (satellite_skycoord : option SatCoords) (gamma : F)
  : list event * result (list F) :=
  match time_as_array time with
  | Raise e => ([], Raise e)
  | Ok time =>
      let '(calls, sat) :=
        match satellite_skycoord with
        | None => get_satellite_coords self time
        | Some c => ([], Ok (Some c))
        end in
      match sat with
      | Raise e => (calls, Raise e)
      | Ok sat =>
          (calls ++ [CallMagnificationCurve],
           magnification_curve time (_parameters self) (_parallax self)
             (_t_0_par self) (_coords self) sat gamma (_methods self)
             (_default_magnification_method self))
      end
  end.

(** [time] is a float, a list or an array. *)
Definition is_time_like (time : pyval F) : bool :=
  match time with
  | VFloat _ | VList _ | VNdarray _ => true
  | _ => false
  end.

End WithImports.

Arguments Model F {I}.
Arguments ModelArgs F {I}.
Arguments coords_arg F {I}.
Arguments parameters_arg F {I}.

End ModelPy.

(* ================================================================== *)
(** * The point-lens magnification *)
(* ================================================================== *)

Module PointLens.

Local Open Scope R_scope.

(** Modelled from the spec: the point-source point-lens magnification of
    sections 4.3 and 8 (magnificationcurve.py, which evaluates it, is not
    among the sources): [A(u) = (u^2 + 2) / (u * sqrt (u^2 + 4))]. *)
Definition A (u : R) : R := (u * u + 2) / (u * sqrt (u * u + 4)).

(** Modelled from the spec: the guarded evaluation of section 8; at
    [u = 0] the divisor [u * sqrt (u^2 + 4)] is zero and no value is
    produced. *)
Definition point_lens_magnification (u : R) : option R :=
  if Req_dec_T u 0 then None else Some (A u).

End PointLens.

(* ================================================================== *)
(** * Concrete inputs *)
(* ================================================================== *)

Module Examples.
Import RealArith.

Local Open Scope R_scope.

(** The lens of examples/example_20_external_mass_sheet.py:
    [K = 0.1], [G = complex(0.05, 0.0)]. *)
Definition example_lens : CausticsPoint.CausticsPointWithShear R Cx :=
  CausticsPoint.__init__ (1 / 10) (5 / 100, 0).

Import Py ModelPy.

(** Sky coordinates, by the way they were built. *)
Inductive sky : Type :=
| SkyText (text : string)
| SkyRaDec (ra dec : string).

(** What a parameter object that only keeps what it is assigned holds:
    the object last assigned to each attribute, and the reference frame
    when [pi_E] is a parallax vector. *)
Record Stored : Type := {
  stored : attribute -> pyobj R;
  stored_ref : option string
}.

Definition attribute_eqb (n m : attribute) : bool :=
  match n, m with
  | Attr_t_0, Attr_t_0 | Attr_t_E, Attr_t_E | Attr_rho, Attr_rho
  | Attr_s, Attr_s | Attr_q, Attr_q | Attr_alpha, Attr_alpha
  | Attr_pi_E, Attr_pi_E | Attr_pi_E_N, Attr_pi_E_N
  | Attr_pi_E_E, Attr_pi_E_E => true
  | _, _ => false
  end.

Definition store_attribute (n : attribute) (v : pyobj R)
    (ref : option string)
    (p : ModelParameters R Stored) : ModelParameters R Stored :=
  {| _u_0 := _u_0 p;
     properties :=
       {| stored := fun m => if attribute_eqb n m then v
                             else stored (properties p) m;
          stored_ref := match n with
                        | Attr_pi_E => ref
                        | _ => stored_ref (properties p)
                        end |} |}.

Definition of_float (x : option R) : pyobj R :=
  match x with Some v => OFloat v | None => ONone end.

(** The least a class in the place of [ModelParameters] and of the other
    imported classes can do: every attribute starts as [None], an
    assignment keeps the object assigned and checks nothing, and no call
    raises.  It stands for the classes that are not at hand in the
    concrete examples. *)
#[export] Instance StoredParameters : Imports R := {|
  Properties := Stored;
  ParallaxVector := pyobj R * string;
  SkyCoord := sky;
  ModelParameters_new :=
    Ok {| _u_0 := Some None;
          properties := {| stored := fun _ => ONone;
                           stored_ref := None |} |};
  ModelParameters_of := fun a =>
    Ok {| _u_0 := Some (pa_u_0 a);
          properties :=
            {| stored := fun n =>
                 match n with
                 | Attr_t_0 => of_float (pa_t_0 a)
                 | Attr_t_E => of_float (pa_t_E a)
                 | Attr_rho => of_float (pa_rho a)
                 | Attr_s => of_float (pa_s a)
                 | Attr_q => pa_q a
                 | Attr_alpha => of_float (pa_alpha a)
                 | Attr_pi_E => pa_pi_E a
                 | Attr_pi_E_N => of_float (pa_pi_E_N a)
                 | Attr_pi_E_E => of_float (pa_pi_E_E a)
                 end;
               stored_ref := pa_pi_E_ref a |} |};
  setattr := fun n v p => Ok (store_attribute n v None p);
  getattr := fun n p =>
    match stored (properties p) n with
    | OFloat x => Ok (Some x)
    | ONone => Ok None
    | _ => Raise (TypeError "not a float")
    end;
  MulensParallaxVector := fun v ref => Ok (v, ref);
  MulensParallaxVector_1_2 := fun n e ref =>
    Ok (OTuple [OFloat n; OFloat e], ref);
  setattr_pi_E := fun v p =>
    Ok (store_attribute Attr_pi_E (fst v) (Some (snd v)) p);
  SkyCoord_of := fun text => Ok (SkyText text);
  SkyCoord_ra_dec := fun ra dec => Ok (SkyRaDec ra dec);
  LimbDarkeningCoeffs_new := Ok tt
|}.

(** A stand-in for the magnification curve and for the satellite
    ephemerides: an unlensed source, one value per epoch. *)
Definition unit_curve (time : list R) (_ : ModelParameters R Stored)
    (_ : Parallax) (_ : option R) (_ : option sky)
    (_ : option unit) (_ : R)
    (_ : option (list (method_token R))) (_ : string)
  : result (list R) :=
  Ok (map (fun _ => 1) time).

Definition no_satellite (_ : string) (_ : list R) : result unit := Ok tt.

End Examples.

(* ================================================================== *)
(** * lens.py: the mass properties *)
(* ================================================================== *)

Module LensMass.
Import Py LensPy.

Section WithArith.

Context {F : Type} {FO : FloatOps F}.
Variable Caustic : Type.

Abbreviation LensT := (@Lens F Caustic).

(** Outcome of a method that assigns attributes and may raise after some
    of the assignments: the object is kept in both cases. *)
Inductive outcome : Type :=
| Returned (self : LensT)
| Raised (e : exn) (self : LensT).

Definition no_total_mass : exn :=
  AttributeError "'Lens' object has no attribute '_total_mass'".
Definition no_epsilon : exn :=
  AttributeError "'Lens' object has no attribute '_epsilon'".
Definition point_lens_only : exn :=
  TypeError "mass can only be defined for a point lens".
Definition not_callable : exn := TypeError "object is not callable".
Definition out_of_bounds : exn := IndexError "index is out of bounds".

(** [Lens.epsilon], getter and setter. *)
Definition epsilon (self : LensT) : result (list F) :=
  match _epsilon self with
  | Some e => Ok e
  | None => Raise no_epsilon
  end.

Definition epsilon_setter (new_epsilon : list F) (self : LensT) : LensT :=
  set_epsilon new_epsilon self.

(** [Lens.mass], getter. *)
Definition mass (self : LensT) : result (num F) :=
  match _epsilon self with
  | None => Raise no_epsilon
  | Some e =>
      if (1 <? List.length e)%nat then Raise point_lens_only
      else total_mass self
  end.

(** [Lens.mass], setter: the [AttributeError] of an unbound [_epsilon]
    is caught, the [TypeError] of a lens of several bodies is not. *)
Definition mass_setter (new_mass : F) (self : LensT) : outcome :=
  match _epsilon self with
  | None => Returned (_set_single_mass new_mass self)
  | Some e =>
      if (1 <? List.length e)%nat then Raised point_lens_only self
      else Returned (_set_single_mass new_mass self)
  end.

(** [self._total_mass * self._epsilon[k]]: the getters [mass_1],
    [mass_2], [mass_3] for [k] = 0, 1, 2. *)
Definition mass_at (k : nat) (self : LensT) : result (num F) :=
  match _total_mass self with
  | None => Raise no_total_mass
  | Some t =>
      match _epsilon self with
      | None => Raise no_epsilon
      | Some e =>
          match nth_error e k with
          | None => Raise out_of_bounds
          | Some ek => Ok (num_scale t ek)
          end
      end
  end.

Definition mass_1 : LensT -> result (num F) := mass_at 0.
Definition mass_2 : LensT -> result (num F) := mass_at 1.
Definition mass_3 : LensT -> result (num F) := mass_at 2.

(** [_change_mass]: its first statement calls [self._total_mass] as a
    function, [self._total_mass(1. - self._epsilon[index])]; once the
    callee and the argument have been evaluated the call raises
    [TypeError], and nothing has been assigned. *)
Definition _change_mass (new_mass : F) (index : nat) (self : LensT)
  : outcome :=
  match _total_mass self with
  | None => Raised no_total_mass self
  | Some _ =>
      match _epsilon self with
      | None => Raised no_epsilon self
      | Some e =>
          match nth_error e index with
          | None => Raised out_of_bounds self
          | Some _ => Raised not_callable self
          end
      end
  end.

(** Operations of numpy on one-dimensional operands. *)
Definition broadcast (f : F -> F -> F) (a b : list F) : result (list F) :=
  if (List.length a =? List.length b)%nat then
    Ok (map (fun p => f (fst p) (snd p)) (combine a b))
  else
    match a, b with
    | [x], _ => Ok (map (f x) b)
    | _, [y] => Ok (map (fun x => f x y) a)
    | _, _ => Raise (ValueError "operands could not be broadcast together")
    end.

(** [total + new_mass] *)
Definition num_add_float (t : num F) (m : F) : result (num F) :=
  match t with
  | Scalar x => Ok (Scalar (f_add x m))
  | NdArray l => Ok (NdArray (map (fun x => f_add x m) l))
  | PyList _ =>
      Raise (TypeError "can only concatenate list (not 'float') to list")
  end.

(** [total * epsilon] *)
Definition num_mul_array (t : num F) (e : list F) : result (list F) :=
  match t with
  | Scalar x => Ok (map (fun ei => f_mul x ei) e)
  | PyList l | NdArray l => broadcast f_mul l e
  end.

(** [array / new_total] *)
Definition array_div_num (a : list F) (t : num F) : result (list F) :=
  match t with
  | Scalar x => Ok (map (fun ai => f_div ai x) a)
  | PyList l | NdArray l => broadcast f_div a l
  end.

Definition division_by_zero : exn :=
  ZeroDivisionError "float division by zero".

(** [new_mass / new_total]: the values to insert.  Between two Python
    floats the division raises when the divisor is zero. *)
Definition float_div_num (m : F) (t : num F) : result (list F) :=
  match t with
  | Scalar x => if f_is_zero x then Raise division_by_zero else Ok [f_div m x]
  | NdArray l => Ok (map (fun x => f_div m x) l)
  | PyList _ =>
      Raise (TypeError "unsupported operand type(s) for /: 'float' and 'list'")
  end.

(** [np.insert(a, index, values)] for an index that is not negative: an
    index beyond the end is refused. *)
Definition np_insert (a : list F) (index : nat) (values : list F)
  : result (list F) :=
  if (index <=? List.length a)%nat then
    Ok (firstn index a ++ values ++ skipn index a)
  else Raise out_of_bounds.

(** [_add_mass]: [self._epsilon] is assigned twice, first the rescaled
    fractions (a numpy division, which does not raise), then the array
    with the new fraction inserted; [self._total_mass] is assigned
    last. *)
Definition _add_mass (new_mass : F) (index : nat) (self : LensT)
  : outcome :=
  match _total_mass self with
  | None => Raised no_total_mass self
  | Some t =>
      match num_add_float t new_mass with
      | Raise e => Raised e self
      | Ok new_total_mass =>
          match _epsilon self with
          | None => Raised no_epsilon self
          | Some e =>
              match (te <- num_mul_array t e ;;
                     array_div_num te new_total_mass) with
              | Raise ex => Raised ex self
              | Ok e1 =>
                  let self := set_epsilon e1 self in
                  match (v <- float_div_num new_mass new_total_mass ;;
                         np_insert e1 index v) with
                  | Raise ex => Raised ex self
                  | Ok e2 =>
                      Returned
                        (set_total_mass new_total_mass (set_epsilon e2 self))
                  end
              end
          end
      end
  end.

(** [Lens.mass_1], setter: [_change_mass], and [_set_single_mass] when
    that raised [AttributeError]. *)
Definition mass_1_setter (new_mass : F) (self : LensT) : outcome :=
  match _change_mass new_mass 0 self with
  | Raised (AttributeError _) self => Returned (_set_single_mass new_mass self)
  | o => o
  end.

(** [Lens.mass_2] and [Lens.mass_3], setters. *)
Definition mass_k_setter (k : nat) (new_mass : F) (self : LensT)
  : outcome :=
  match _epsilon self with
  | None => Raised no_epsilon self
  | Some e =>
      if (k <? List.length e)%nat then _change_mass new_mass k self
      else _add_mass new_mass k self
  end.

Definition mass_2_setter : F -> LensT -> outcome := mass_k_setter 1.

(** [Lens(mass_1=.., mass_2=..)] and [Lens(mass_1=.., q=.., s=..)]. *)
Definition args_masses (mass_1 mass_2 : F) : LensArgs :=
  {| arg_total_mass := None; arg_mass := None; arg_mass_1 := Some mass_1;
     arg_mass_2 := Some mass_2; arg_a_proj := None; arg_distance := None;
     arg_q := None; arg_s := None; arg_epsilon := None |}.

Definition args_mass_1_q_s (mass_1 q s : F) : LensArgs :=
  {| arg_total_mass := None; arg_mass := None; arg_mass_1 := Some mass_1;
     arg_mass_2 := None; arg_a_proj := None; arg_distance := None;
     arg_q := Some (Scalar q); arg_s := Some (Scalar s);
     arg_epsilon := None |}.

End WithArith.

Arguments Returned {F Caustic} self.
Arguments Raised {F Caustic} e self.

End LensMass.

(* ================================================================== *)
(** * model.py: epochs, limb darkening, plot keywords *)
(* ================================================================== *)

(** [np.arange(start, stop, step)] for floats. *)
Class ArangeOps (F : Type) : Type := {
  f_arange : F -> F -> F -> Py.result (list F)
}.

Module RealArange.
Import Py RealArith.

Local Open Scope R_scope.

(** The least integer not below [x]. *)
Definition R_ceil (x : R) : Z := (- Int_part (- x))%Z.

(** In exact arithmetic [np.arange] returns the
    [ceil ((stop - start) / step)] values [start + i * step]; a zero step
    is refused. *)
Definition R_arange (start stop step : R) : result (list R) :=
  if Req_dec_T step 0 then
    Raise (ValueError "Maximum allowed size exceeded")
  else
    Ok (map (fun i => start + INR i * step)
            (seq 0 (Z.to_nat (R_ceil ((stop - start) / step))))).

#[export] Instance R_ArangeOps : ArangeOps R := {| f_arange := R_arange |}.

End RealArange.

Module ModelMore.
Import Py ModelPy.

Section WithArith.

Context {F : Type} {FO : FloatOps F} {AO : ArangeOps F} {I : Imports F}.

(** The arguments with [dec] replaced. *)
Definition with_arg_dec (v : option string) (a : ModelArgs F)
  : ModelArgs F :=
  {| arg_parameters := arg_parameters a; arg_t_0 := arg_t_0 a;
     arg_u_0 := arg_u_0 a; arg_t_E := arg_t_E a; arg_rho := arg_rho a;
     arg_s := arg_s a; arg_q := arg_q a; arg_alpha := arg_alpha a;
     arg_pi_E := arg_pi_E a; arg_pi_E_N := arg_pi_E_N a;
     arg_pi_E_E := arg_pi_E_E a; arg_pi_E_ref := arg_pi_E_ref a;
     arg_t_0_par := arg_t_0_par a; arg_coords := arg_coords a;
     arg_ra := arg_ra a; arg_dec := v;
     arg_ephemerides_file := arg_ephemerides_file a |}.

(** [pi_E_N] and [pi_E_E] are both given or both left out. *)
Definition parallax_pair_ok (a : ModelArgs F) : bool :=
  Bool.eqb (is_not_None (arg_pi_E_N a)) (is_not_None (arg_pi_E_E a)).

(** [ra] is not given without [dec]. *)
Definition ra_has_dec (a : ModelArgs F) : bool :=
  negb (is_not_None (arg_ra a)) || is_not_None (arg_dec a).

(** [parameters] is left out or a [ModelParameters] object. *)
Definition parameters_typed (a : ModelArgs F) : bool :=
  match arg_parameters a with
  | NotParameters => false
  | _ => true
  end.

(** What lines 90-97 leave [q] bound to, when they raise nothing. *)
Definition q_after (a : ModelArgs F) : result (pyobj F) :=
  if given (arg_q a) then unpack_q (arg_q a) else Ok ONone.

(** The checks [Model.__init__] makes itself, on its arguments alone. *)
Definition init_checks (a : ModelArgs F) : bool :=
  parameters_typed a
  && match q_after a with
     | Ok q => negb (some_but_not_all (arg_s a) q (arg_alpha a))
     | Raise _ => false
     end
  && parallax_pair_ok a && ra_has_dec a.

(** The arguments [set_parameters] gets when called with none:
    [t_0=0.], [t_E=1.], [None] for the rest. *)
Definition set_parameters_defaults : ParameterArgs F :=
  {| pa_t_0 := Some f_zero; pa_u_0 := None; pa_t_E := Some f_one;
     pa_rho := None; pa_s := None; pa_q := ONone; pa_alpha := None;
     pa_pi_E := ONone; pa_pi_E_N := None; pa_pi_E_E := None;
     pa_pi_E_ref := None |}.

(** [float(n)] for an [int]. *)
Definition f_of_Z (n : Z) : F :=
  if (n <? 0)%Z then f_neg (f_of_nat (Z.to_nat (- n)))
  else f_of_nat (Z.to_nat n).

(** The literal [1.5], as [(1 + 1 + 1) / (1 + 1)] (exact in binary64
    too). *)
Definition n_tE : F :=
  f_div (f_add (f_add f_one f_one) f_one) (f_add f_one f_one).

Definition none_times_float : exn :=
  TypeError "unsupported operand type(s) for *: 'float' and 'NoneType'".
Definition none_op_float (op : string) : exn :=
  TypeError ("unsupported operand type(s) for " ++ op
             ++ ": 'NoneType' and 'float'").
Definition float_of_none : exn :=
  TypeError "float() argument must be a string or a number, not 'NoneType'".

(** [self.t_0 op (n_tE * self.t_E)]: [self.t_0] is read first, then
    [self.t_E]; the product is evaluated before [op]. *)
Definition around_t_0 (name : string) (op : F -> F -> F) (self : Model F)
  : result F :=
  t_0 <- get_t_0 self ;;
  t_E <- get_t_E self ;;
  match t_E with
  | None => Raise none_times_float
  | Some t_E =>
      match t_0 with
      | None => Raise (none_op_float name)
      | Some t_0 => Ok (op t_0 (f_mul n_tE t_E))
      end
  end.

(** Lines 1067-1074 of [set_times]: the two ends of the time range. *)
Definition time_bounds (t_range : option (list F))
    (t_start t_stop : option F) (self : Model F) : result (F * F) :=
  bounds <- match t_range with
            | Some r =>
                match nth_error r 0, nth_error r 1 with
                | Some a, Some b => Ok (Some a, Some b)
                | _, _ => Raise (IndexError "list index out of range")
                end
            | None => Ok (t_start, t_stop)
            end ;;
  let '(t_start, t_stop) := bounds in
  t_start <- match t_start with
             | Some v => Ok v
             | None => around_t_0 "-" f_sub self
             end ;;
  t_stop <- match t_stop with
            | Some v => Ok v
            | None => around_t_0 "+" f_add self
            end ;;
  Ok (t_start, t_stop).

(** What [set_times] does: it returns the epochs, raises one of the
    exceptions of [Py], or raises [ZeroDivisionError]. *)
Inductive times_outcome : Type :=
| Times (t : list F)
| TimesRaise (e : exn)
| ZeroDivisionError.

Definition arange_outcome (start stop step : F) : times_outcome :=
  match f_arange start stop step with
  | Ok t => Times t
  | Raise e => TimesRaise e
  end.

(** [Model.set_times], with Python floats for the times as documented.
    [n_epochs] is an [int], or [None] when a caller passes
    [n_epochs=None]; the default of the signature is 1000.  The division
    by [float(n_epochs)] raises [ZeroDivisionError] at [n_epochs = 0]. *)
Definition set_times (t_range : option (list F))
    (t_start t_stop dt : option F) (n_epochs : option Z)
    (self : Model F) : times_outcome :=
  match time_bounds t_range t_start t_stop self with
  | Raise e => TimesRaise e
  | Ok (t_start, t_stop) =>
      match dt with
      | Some dt => arange_outcome t_start (f_add t_stop dt) dt
      | None =>
          match n_epochs with
          | None => TimesRaise float_of_none
          | Some n =>
              if (n =? 0)%Z then ZeroDivisionError
              else
                let dt := f_div (f_sub t_stop t_start) (f_of_Z n) in
                arange_outcome t_start (f_add t_stop dt) dt
          end
      end
  end.

(** The head of [plot_magnification], [plot_lc] and [plot_trajectory]:
    [if times is None: times = self.set_times(t_range=t_range,
    t_start=t_start, t_stop=t_stop, dt=dt, n_epochs=n_epochs)], where
    [n_epochs] is the keyword of the plot method, [None] by default. *)
Definition plot_times (times : option (list F)) (t_range : option (list F))
    (t_start t_stop dt : option F) (n_epochs : option Z)
    (self : Model F) : times_outcome :=
  match times with
  | Some t => Times t
  | None => set_times t_range t_start t_stop dt n_epochs self
  end.

End WithArith.

(* ---------------------------------------------------------------- *)
(** ** Limb-darkening coefficients *)

Section WithLimbDarkening.

Context {F : Type} {I : Imports F}.

(** The class [LimbDarkeningCoeffs] (limbdarkeningcoeffs.py is not among
    the sources): its constructor, its two setters and the getter
    [limb_coef_gamma]. *)
Variable LimbDarkeningCoeffs : Type.
Variable ld_new : LimbDarkeningCoeffs.
Variable ld_set_gamma : string -> F -> LimbDarkeningCoeffs ->
                        LimbDarkeningCoeffs.
Variable ld_set_u : string -> F -> LimbDarkeningCoeffs ->
                    LimbDarkeningCoeffs.
Variable ld_gamma : string -> LimbDarkeningCoeffs -> result F.

(** The two attributes of a [Model] behind the limb-darkening methods. *)
Record Limb : Type := {
  _limb_darkening_coeffs : LimbDarkeningCoeffs;
  _bandpasses : list string
}.

(** As [__init__] leaves them. *)
Definition Limb_new : Limb :=
  {| _limb_darkening_coeffs := ld_new; _bandpasses := [] |}.

(** [bandpass in self._bandpasses] *)
Definition has_bandpass (bandpass : string) (l : list string) : bool :=
  if in_dec string_dec bandpass l then true else false.

(** [if bandpass not in self._bandpasses:
       self._bandpasses.append(bandpass)] *)
Definition register (bandpass : string) (l : list string) : list string :=
  if has_bandpass bandpass l then l else l ++ [bandpass].

(** [Model.set_limb_coef_gamma] and [Model.set_limb_coef_u]. *)
Definition set_limb_coef_gamma (bandpass : string) (coef : F)
    (self : Limb) : Limb :=
  {| _limb_darkening_coeffs :=
       ld_set_gamma bandpass coef (_limb_darkening_coeffs self);
     _bandpasses := register bandpass (_bandpasses self) |}.

Definition set_limb_coef_u (bandpass : string) (coef : F)
    (self : Limb) : Limb :=
  {| _limb_darkening_coeffs :=
       ld_set_u bandpass coef (_limb_darkening_coeffs self);
     _bandpasses := register bandpass (_bandpasses self) |}.

(** [Model.bandpasses] *)
Definition bandpasses (self : Limb) : list string := _bandpasses self.

(** A call of one of the two setters. *)
Inductive limb_call : Type :=
| SetGamma (bandpass : string) (coef : F)
| SetU (bandpass : string) (coef : F).

Definition run_limb_call (self : Limb) (c : limb_call) : Limb :=
  match c with
  | SetGamma b x => set_limb_coef_gamma b x self
  | SetU b x => set_limb_coef_u b x self
  end.

Definition call_bandpass (c : limb_call) : string :=
  match c with
  | SetGamma b _ | SetU b _ => b
  end.

(** A sequence of such calls, in order. *)
Definition run_limb_calls (calls : list limb_call) (self : Limb) : Limb :=
  fold_left run_limb_call calls self.

(** What [get_data_magnification] reads of a [MulensData] dataset
    (mulensdata.py is not among the sources). *)
Variable SatCoords : Type.

Record MulensData : Type := {
  data_time : pyval F;
  data_ephemerides_file : option string;
  data_satellite_skycoord : option SatCoords;
  data_bandpass : option string
}.

Variable satellite_skycoords_get : string -> list F -> result SatCoords.
Variable magnification_curve :
  list F -> ModelParameters F Properties -> Parallax -> option F ->
  option SkyCoord -> option SatCoords -> F ->
  option (list (method_token F)) -> string -> result (list F).

Definition bandpass_not_set (bandpass : string) : exn :=
  ValueError
    ("Limb darkening coefficient requested for bandpass " ++ bandpass
     ++ ", but not set before. Use set_limb_coef_gamma() or "
     ++ "set_limb_coef_u()").

(** [Model.get_data_magnification]; [zero] is the literal [0.]. *)
Definition get_data_magnification (zero : F) (self : Model F)
    (limb : Limb) (dataset : MulensData)
  : list event * result (list F) :=
  let dataset_satellite_skycoord :=
    match data_ephemerides_file dataset with
    | Some _ => data_satellite_skycoord dataset
    | None => None
    end in
  let gamma :=
    match data_bandpass dataset with
    | None => Ok zero
    | Some b =>
        if has_bandpass b (bandpasses limb) then
          ld_gamma b (_limb_darkening_coeffs limb)
        else Raise (bandpass_not_set b)
    end in
  match gamma with
  | Raise e => ([], Raise e)
  | Ok gamma =>
      magnification satellite_skycoords_get magnification_curve self
        (data_time dataset) dataset_satellite_skycoord gamma
  end.

End WithLimbDarkening.

End ModelMore.

(* ---------------------------------------------------------------- *)
(** ** Plot keywords *)

Module PlotKwargs.
Import Py.

(** A Python [dict] with string keys, in insertion order. *)
Definition dict (A : Type) : Type := list (string * A).

Definition keys {A} (d : dict A) : list string := map fst d.

(** [d[k] = v]: the value of an existing key is replaced in place, a new
    key goes to the end. *)
Fixpoint dict_set {A} (k : string) (v : A) (d : dict A) : dict A :=
  match d with
  | [] => [(k, v)]
  | (k', v') :: rest =>
      if String.eqb k k' then (k, v) :: rest
      else (k', v') :: dict_set k v rest
  end.

Section WithValues.

(** Values other than the strings and integers the method writes. *)
Variable V : Type.

Inductive pval : Type :=
| PStr (s : string)
| PInt (z : Z)
| PObj (v : V).

(** [self.plot_properties]: the five keys [_store_plot_properties]
    writes and [_set_plot_kwargs] reads; [None] is an absent key. *)
Record PlotProperties : Type := {
  color_list : option (list pval);
  marker_list : option (list pval);
  size_list : option (list pval);
  label_list : option (list pval);
  other_kwargs : option (dict pval)
}.

(** [reset_plot_properties] *)
Definition reset_plot_properties : PlotProperties :=
  {| color_list := None; marker_list := None; size_list := None;
     label_list := None; other_kwargs := None |}.

(** [len(self.plot_properties)] *)
Definition n_keys (pp : PlotProperties) : nat :=
  (if is_not_None (color_list pp) then 1 else 0)
  + (if is_not_None (marker_list pp) then 1 else 0)
  + (if is_not_None (size_list pp) then 1 else 0)
  + (if is_not_None (label_list pp) then 1 else 0)
  + (if is_not_None (other_kwargs pp) then 1 else 0).

(** [_store_plot_properties]: an argument that is [None], and an empty
    [**kwargs], leave the stored value alone. *)
Definition _store_plot_properties
    (color marker size label : option (list pval)) (kwargs : dict pval)
    (pp : PlotProperties) : PlotProperties :=
  {| color_list := match color with Some l => Some l
                                  | None => color_list pp end;
     marker_list := match marker with Some l => Some l
                                    | None => marker_list pp end;
     size_list := match size with Some l => Some l
                                | None => size_list pp end;
     label_list := match label with Some l => Some l
                                  | None => label_list pp end;
     other_kwargs := if (0 <? List.length kwargs)%nat then Some kwargs
                     else other_kwargs pp |}.

(** [rcParams['axes.prop_cycle'].by_key()['color']] *)
Variable default_colors : list pval.

Definition marker_key (show_errorbars : bool) : string :=
  (if show_errorbars then "fmt" else "marker")%string.

Definition size_key (show_errorbars : bool) : string :=
  (if show_errorbars then "markersize" else "s")%string.

(** [key in ['markersize', 'ms', 's']] and [key in ['marker', 'fmt']] *)
Definition is_size_alias (key : string) : bool :=
  String.eqb key "markersize" || String.eqb key "ms" || String.eqb key "s".

Definition is_marker_alias (key : string) : bool :=
  String.eqb key "marker" || String.eqb key "fmt".

(** [if name in self.plot_properties.keys():
       new_kwargs[key] = self.plot_properties[name][index]] *)
Definition take (l : option (list pval)) (index : nat) (key : string)
    (new_kwargs : dict pval) : result (dict pval) :=
  match l with
  | None => Ok new_kwargs
  | Some l =>
      match nth_error l index with
      | Some v => Ok (dict_set key v new_kwargs)
      | None => Raise (IndexError "list index out of range")
      end
  end.

(** Body of [for (key, value) in ...['other_kwargs'].items()]. *)
Definition add_other (show_errorbars : bool) (new_kwargs : dict pval)
    (kv : string * pval) : dict pval :=
  let '(key, value) := kv in
  if is_size_alias key then dict_set (size_key show_errorbars) value new_kwargs
  else if is_marker_alias key then
    dict_set (marker_key show_errorbars) value new_kwargs
  else dict_set key value new_kwargs.

(** [_set_plot_kwargs]: [self.plot_properties] with the default colours
    filled in, which stays so when the method raises, and the keywords. *)
Definition _set_plot_kwargs (index : nat) (show_errorbars bad_data : bool)
    (pp : PlotProperties) : PlotProperties * result (dict pval) :=
  let pp :=
    match color_list pp with
    | Some _ => pp
    | None =>
        {| color_list := Some default_colors;
           marker_list := marker_list pp; size_list := size_list pp;
           label_list := label_list pp; other_kwargs := other_kwargs pp |}
    end in
  let new_kwargs : dict pval :=
    if negb bad_data then
      dict_set (size_key show_errorbars) (PInt 3)
        (dict_set (marker_key show_errorbars) (PStr "o") [])
    else
      dict_set (size_key show_errorbars) (PInt 10)
        (dict_set (marker_key show_errorbars) (PStr "x") []) in
  (pp,
   if (0 <? n_keys pp)%nat then
     kw <- take (color_list pp) index "color" new_kwargs ;;
     kw <- take (marker_list pp) index (marker_key show_errorbars) kw ;;
     kw <- take (size_list pp) index (size_key show_errorbars) kw ;;
     kw <- take (label_list pp) index "label" kw ;;
     Ok match other_kwargs pp with
        | Some others => fold_left (add_other show_errorbars) others kw
        | None => kw
        end
   else Ok new_kwargs).

(** The keyword names of the other plotting function, and the short form
    [ms]. *)
Definition foreign_keys (show_errorbars : bool) : list string :=
  if show_errorbars then ["marker"; "s"; "ms"]%string
  else ["fmt"; "markersize"; "ms"]%string.

(** What every step of [_set_plot_kwargs] keeps: no key twice and none
    of the keys of the other plotting function. *)
Definition fits (show_errorbars : bool) (kw : dict pval) : Prop :=
  NoDup (keys kw) /\
  forall k, In k (foreign_keys show_errorbars) -> ~ In k (keys kw).

End WithValues.

Arguments PStr {V} s.
Arguments PInt {V} z.
Arguments PObj {V} v.

End PlotKwargs.

(* ================================================================== *)
(** * Properties of causticspoint.py *)
(* ================================================================== *)

Module CausticsPointFacts.
Import Py CausticsPoint.

(** ** The number of angles *)

Lemma n_angles_of_quot (n_points : Z) :
  n_angles_of n_points = ((n_points + 2) ÷ 4)%Z.
Proof.
  unfold n_angles_of, py_int. cbn.
  replace (n_points * 1 * 10 + 20)%Z with ((n_points + 2) * 10)%Z by ring.
  change 40%Z with (4 * 10)%Z.
  apply Z.quot_mul_cancel_r; discriminate.
Qed.

Lemma n_angles_of_nonneg (n_points : Z) :
  (0 <= n_points)%Z -> n_angles_of n_points = ((n_points + 2) / 4)%Z.
Proof.
  intros H. rewrite n_angles_of_quot.
  apply Z.quot_div_nonneg; lia.
Qed.



(** At least one angle is sampled as soon as [n_points >= 2]. *)
Lemma n_angles_of_pos (n_points : Z) :
  (2 <= n_points)%Z -> (1 <= n_angles_of n_points)%Z.
Proof.
  intros H. rewrite n_angles_of_nonneg by lia.
  apply Z.div_le_lower_bound; lia.
Qed.


Section WithArith.

Context {F C : Type} {FO : FloatOps F} {TO : TrigOps F} {CO : ComplexOps F C}.

Abbreviation Caustics := (CausticsPointWithShear F C).

(** ** The two loops *)



(** ** [np.linspace] *)

Lemma linspace_ok (start stop : F) (num : Z) :
  (0 <= num)%Z ->
  linspace start stop num =
  Ok (map (fun i => f_add (f_mul (f_of_nat i)
                             (f_div (f_sub stop start)
                                    (f_of_nat (Z.to_nat num))))
                          start)
          (seq 0 (Z.to_nat num))).
Proof.
  intros H. unfold linspace.
  destruct (num <? 0)%Z eqn:E; [apply Z.ltb_lt in E; lia | reflexivity].
Qed.



Lemma nth_error_angles (n i : nat) :
  (i < n)%nat -> nth_error (angles n) i = Some (phi_at n i).
Proof.
  intros H. unfold angles.
  rewrite nth_error_map, nth_error_seq.
  destruct (Nat.ltb_spec i n); [reflexivity | lia].
Qed.

Lemma linspace_angles (num : Z) :
  (0 <= num)%Z ->
  linspace f_zero (f_mul two f_pi) num = Ok (angles (Z.to_nat num)).
Proof. intros H. rewrite linspace_ok by assumption. reflexivity. Qed.

(** ** [_calculate] *)

Lemma soln_of_raises (self : Caustics) (phi : F) :
  soln_of self phi = Raise sqrt_is_not_defined.
Proof. reflexivity. Qed.

(** The loop over the angles stops in its first iteration. *)
Lemma for_each_angle_raises (self : Caustics) (phi : F) (phis : list F)
    (st : store F) :
  for_each (angle_step self) (phi :: phis) st = Raise sqrt_is_not_defined.
Proof. reflexivity. Qed.

Lemma calculate_raises (self : Caustics) (n_points : Z) :
  (1 <= n_angles_of n_points)%Z ->
  _calculate self n_points = Raise sqrt_is_not_defined.
Proof.
  intros H. unfold _calculate.
  rewrite linspace_angles by lia.
  destruct (Z.to_nat (n_angles_of n_points)) as [|n] eqn:E; [lia|].
  unfold angles. cbn [seq map bind].
  rewrite for_each_angle_raises. reflexivity.
Qed.

End WithArith.

End CausticsPointFacts.
Module CausticsPointClaims.
Import Py CausticsPoint CausticsPointFacts Examples.

Section WithArith.

Context {F C : Type} {FO : FloatOps F} {TO : TrigOps F} {CO : ComplexOps F C}.

Abbreviation Caustics := (CausticsPointWithShear F C).


(** C2: the statement that computes the roots calls [sqrt], a name the
    module does not bind.  As soon as one angle is sampled, that is for
    every [n_points >= 2], [_calculate] raises [NameError] in the first
    pass of the loop, whatever [K], [G] and the arithmetic are: no root is
    stored. *)
Theorem calculate_raises_NameError (self : Caustics) (n_points : Z) :
  (2 <= n_points)%Z ->
  _calculate self n_points = Raise (NameError "name 'sqrt' is not defined").
Proof.
  intros H. apply calculate_raises. apply n_angles_of_pos. exact H.
Qed.

End WithArith.

Import RealArith.
Local Open Scope R_scope.

(** C3: at the default resolution, and for the lens of
    examples/example_20_external_mass_sheet.py, [_calculate] raises
    [NameError] before a root reaches the loop that stores its image.
    That loop itself appends, for a root [z], the parts of [z] to the
    critical curve and those of [(1 - K) * z - G * conj z - 1 / conj z]
    to the caustic, at the same position. *)
Theorem no_caustic_point_is_stored :
  _calculate example_lens 5000
  = Raise (NameError "name 'sqrt' is not defined") /\
  forall (self : CausticsPointWithShear R Cx) (st : store R) (z : Cx),
    let w :=
      c_sub (c_sub (Cx_mul (1 - convergence_K self, 0) z)
                   (Cx_mul (shear_G self) (c_conj z)))
            (Cx_div (1, 0) (c_conj z)) in
    store_root self st z
    = {| st_cc := {| cc_x := cc_x (st_cc st) ++ [fst z];
                     cc_y := cc_y (st_cc st) ++ [snd z] |};
         st_x := st_x st ++ [fst w];
         st_y := st_y st ++ [snd w] |}.
Proof.
  split.
  - apply calculate_raises. vm_compute. discriminate.
  - intros self st z. reflexivity.
Qed.


Lemma calculate_raises_NameError_witness :
  _calculate example_lens 8 = Raise (NameError "name 'sqrt' is not defined").
Proof.
  exact (@calculate_raises_NameError R Cx _ _ _ example_lens 8%Z
           ltac:(lia)).
Defined.

End CausticsPointClaims.

(* ================================================================== *)
(** * Properties of lens.py *)
(* ================================================================== *)

Module LensFacts.
Import Py LensPy.

Section WithArith.

Context {F : Type} {FO : FloatOps F}.
Variable Caustic : Type.

Abbreviation LensT := (@Lens F Caustic).

(** ** The mass ratio *)

Lemma q_setter_epsilon (q : F) (self : LensT) :
  _epsilon (q_setter (Scalar q) self) =
  Some [f_div f_one (one_plus q); f_div q (one_plus q)].
Proof.
  unfold q_setter. cbn [np_insert0 List.length map Z.of_nat].
  change (Z.of_nat 2 =? Z.of_nat 2 - 1)%Z with false. cbn iota.
  destruct (_total_mass (set_epsilon _ self)); reflexivity.
Qed.

Lemma q_setter_caustic (new_q : num F) (self : LensT) :
  _caustic (q_setter new_q self) = _caustic self.
Proof.
  unfold q_setter.
  destruct (_ =? _)%Z; [reflexivity|].
  destruct (_total_mass (set_epsilon _ self)); reflexivity.
Qed.

Lemma s_setter_caustic (new_s : num F) (self : LensT) :
  _caustic (s_setter new_s self) = _caustic self.
Proof. reflexivity. Qed.

(** [Lens(q=q, s=s, ...)] with a scalar [q], where none of [epsilon],
    [mass_2] and [mass] is given, leaves the fractions of the [q] setter
    in place. *)
Lemma init_q_s_epsilon (a : LensArgs) (q : F) (s : num F) :
  arg_q a = Some (Scalar q) -> arg_s a = Some s ->
  arg_epsilon a = None -> arg_mass_2 a = None -> arg_mass a = None ->
  exists self : LensT,
    __init__ Caustic a = Ok self /\
    _epsilon self = Some [f_div f_one (one_plus q); f_div q (one_plus q)] /\
    _s self = Some s /\ _caustic self = None.
Proof.
  intros Hq Hs He Hm2 Hm. unfold __init__.
  rewrite Hq, Hs, He, Hm2, Hm. cbn [when bind].
  set (l0 := {| _caustic := None; _epsilon := None; _total_mass := None;
                _s := None; _distance := None; _a_proj := None |}).
  pose proof (q_setter_epsilon q l0) as E.
  pose proof (q_setter_caustic (Scalar q) l0) as Ec.
  destruct (q_setter (Scalar q) l0) as [c e tm s0 d p]. cbn in E, Ec.
  subst e c.
  destruct (arg_mass_1 a), (arg_total_mass a), (arg_distance a),
    (arg_a_proj a); cbn; eexists; repeat split; reflexivity.
Qed.

Lemma q_of_two_bodies (self : LensT) (e0 e1 : F) :
  _epsilon self = Some [e0; e1] -> q self = Ok [f_div e1 e0].
Proof. intros E. unfold q. rewrite E. reflexivity. Qed.

Lemma q_of_one_body (self : LensT) (e0 : F) :
  _epsilon self = Some [e0] ->
  q self = Raise (AttributeError "Lens has only one body").
Proof. intros E. unfold q. rewrite E. reflexivity. Qed.

Lemma init_mass_epsilon (mass : F) :
  exists self : LensT,
    __init__ Caustic (args_mass mass) = Ok self /\
    _epsilon self = Some [f_one].
Proof. eexists. split; reflexivity. Qed.

(** [Lens.__init__] asks for [s] when [q] is given, but not for [q] when
    [s] is given: a lone [s] is dropped without an error. *)
Lemma init_q_without_s (a : LensArgs) (q : num F) :
  arg_q a = Some q -> arg_s a = None ->
  __init__ Caustic a
  = Raise (AttributeError "if q is defined, s must also be defined.").
Proof. intros Hq Hs. unfold __init__. rewrite Hq, Hs. reflexivity. Qed.

Lemma init_s_without_q (s : num F) :
  exists self : LensT,
    __init__ Caustic
      {| arg_total_mass := None; arg_mass := None; arg_mass_1 := None;
         arg_mass_2 := None; arg_a_proj := None; arg_distance := None;
         arg_q := None; arg_s := Some s; arg_epsilon := None |}
    = Ok self /\ _s self = None.
Proof. eexists. split; reflexivity. Qed.

(** ** The caustic cache *)

Lemma set_epsilon_caustic (e : list F) (self : LensT) :
  _caustic (set_epsilon e self) = _caustic self.
Proof. reflexivity. Qed.

Lemma when_caustic {A} (o : option A) (k : A -> LensT -> result LensT)
    (self self' : LensT) :
  (forall x s s', k x s = Ok s' -> _caustic s' = _caustic s) ->
  when o k self = Ok self' -> _caustic self' = _caustic self.
Proof.
  intros Hk. destruct o as [x|]; cbn.
  - apply Hk.
  - intros H. injection H as <-. reflexivity.
Qed.

(** No statement of [__init__] after the first assigns [_caustic]: a
    lens just built has no caustic stored. *)
Lemma init_caustic (a : LensArgs) (self : LensT) :
  __init__ Caustic a = Ok self -> _caustic self = None.
Proof.
  unfold __init__.
  set (l0 := {| _caustic := None; _epsilon := None; _total_mass := None;
                _s := None; _distance := None; _a_proj := None |}).
  assert (E0 : _caustic l0 = None) by reflexivity.
  revert E0. generalize l0. clear l0. intros l0 E0 H.
  destruct (when (arg_q a) _ l0) as [l1|] eqn:H1; [|discriminate].
  cbn [bind] in H.
  assert (E1 : _caustic l1 = None).
  { rewrite <- E0. revert H1. apply when_caustic. intros q s s' Hs.
    destruct (arg_s a); [|discriminate]. cbn [bind] in Hs.
    revert Hs. intros Hs.
    transitivity (_caustic (s_setter n (q_setter q s))).
    - revert Hs. apply when_caustic. intros m t t' Ht.
      destruct (primary_times_one_plus_q m q); [|discriminate].
      injection Ht as <-. reflexivity.
    - rewrite s_setter_caustic. apply q_setter_caustic. }
  destruct (when (arg_total_mass a) _ l1) as [l2|] eqn:H2; [|discriminate].
  cbn [bind] in H.
  assert (E2 : _caustic l2 = None).
  { rewrite <- E1. revert H2. apply when_caustic. intros m t t' Ht.
    injection Ht as <-. reflexivity. }
  destruct (when (arg_epsilon a) _ l2) as [l3|] eqn:H3; [|discriminate].
  cbn [bind] in H.
  assert (E3 : _caustic l3 = None).
  { rewrite <- E2. revert H3. apply when_caustic. intros m t t' Ht.
    injection Ht as <-. reflexivity. }
  match type of H with
  | bind ?r _ = _ => destruct r as [l4|] eqn:H4; [|discriminate]
  end.
  cbn [bind] in H.
  assert (E4 : _caustic l4 = None).
  { rewrite <- E3. destruct (arg_mass_2 a) as [m2|].
    - destruct (arg_mass_1 a) as [m1|]; [|discriminate].
      destruct (f_is_zero _); [discriminate|].
      injection H4 as <-. reflexivity.
    - match type of H4 with
      | when _ _ ?l = _ => transitivity (_caustic l)
      end.
      + revert H4. apply when_caustic. intros m t t' Ht.
        injection Ht as <-. reflexivity.
      + destruct (arg_mass_1 a), (arg_q a); reflexivity. }
  destruct (when (arg_distance a) _ l4) as [l5|] eqn:H5; [|discriminate].
  cbn [bind] in H.
  assert (E5 : _caustic l5 = None).
  { rewrite <- E4. revert H5. apply when_caustic. intros m t t' Ht.
    injection Ht as <-. reflexivity. }
  rewrite <- E5. revert H. apply when_caustic. intros m t t' Ht.
  injection Ht as <-. reflexivity.
Qed.

(** With [_calculate_caustics] as it is, an access of a lens without a
    stored caustic calls it, gets [None] and leaves the lens as it
    was. *)
Lemma caustic_of_the_stub (self : LensT) :
  _caustic self = None ->
  caustic (@_calculate_caustics F Caustic) self = (None, self, 1%nat).
Proof.
  intros E. unfold caustic. rewrite E. destruct self. cbn in *.
  subst. reflexivity.
Qed.


Variable calc : LensT -> option Caustic.

Lemma caustic_cached (self : LensT) (c : Caustic) :
  _caustic self = Some c -> caustic calc self = (Some c, self, 0%nat).
Proof. intros E. unfold caustic. rewrite E. reflexivity. Qed.

Lemma caustic_first (self : LensT) :
  _caustic self = None ->
  caustic calc self = (calc self, set_caustic (calc self) self, 1%nat).
Proof. intros E. unfold caustic. rewrite E. reflexivity. Qed.

(** Whatever [_calculate_caustics] is, a fresh lens cannot satisfy both
    halves of the caching claim. *)
Lemma not_memoized_and_invalidated (new_q : num F) (self : LensT) :
  _caustic self = None ->
  ~ (memoized_once calc self /\ invalidated_by_q calc new_q self).
Proof.
  intros E [Hm Hi]. unfold memoized_once, invalidated_by_q in *.
  rewrite (caustic_first self E) in Hm, Hi.
  destruct (calc self) as [c|] eqn:Ec.
  - rewrite (caustic_cached (q_setter new_q _) (c := c)) in Hi
      by (rewrite q_setter_caustic; reflexivity).
    destruct Hi as [Hi _]. discriminate.
  - rewrite (caustic_first (set_caustic None self)) in Hm by reflexivity.
    destruct Hm as [_ Hm]. discriminate.
Qed.

End WithArith.

End LensFacts.

Module LensClaims.
Import Py LensPy LensFacts Examples.
Import RealArith Binary64.

(** C4: [Lens._calculate_caustics] is an empty method, so the getter has
    nothing to store.  On every lens [Lens.__init__] builds, an access
    of [caustic] calls [_calculate_caustics], returns [None] and leaves
    the lens as it was: two accesses in a row compute twice, and nothing
    is memoized.  The same holds after [q] or [s] was assigned, so the
    access after such a change does compute anew. *)
Theorem caustic_is_computed_at_every_access :
  forall (F : Type) (FO : FloatOps F) (Caustic : Type)
         (a : LensArgs) (self : @Lens F Caustic),
    __init__ Caustic a = Ok self ->
    caustic (@_calculate_caustics F Caustic) self = (None, self, 1%nat) /\
    ~ memoized_once (@_calculate_caustics F Caustic) self /\
    (forall new_q,
        caustic (@_calculate_caustics F Caustic) (q_setter new_q self)
        = (None, q_setter new_q self, 1%nat)) /\
    (forall new_s,
        caustic (@_calculate_caustics F Caustic) (s_setter new_s self)
        = (None, s_setter new_s self, 1%nat)) /\
    (forall new_q,
        invalidated_by_q (@_calculate_caustics F Caustic) new_q self).
Proof.
  intros F FO Caustic a self H.
  pose proof (@init_caustic F FO Caustic a self H) as E.
  pose proof (@caustic_of_the_stub F Caustic self E) as E1.
  assert (Eq : forall new_q,
             caustic (@_calculate_caustics F Caustic) (q_setter new_q self)
             = (None, q_setter new_q self, 1%nat)).
  { intros new_q. apply caustic_of_the_stub.
    rewrite q_setter_caustic. exact E. }
  split; [exact E1|]. split; [|split; [exact Eq|split]].
  - unfold memoized_once. rewrite E1, E1. intros [_ Hn]. discriminate.
  - intros new_s. apply caustic_of_the_stub. exact E.
  - intros new_q. unfold invalidated_by_q. rewrite E1, Eq.
    split; reflexivity.
Qed.

(** C9, as amended.  [Lens(q=q, s=s)] with a scalar [q] is built, and
    reading [q] back returns the one-element array holding
    [(q / (1 + q)) / (1 / (1 + q))] as the arithmetic in use evaluates it;
    in exact arithmetic that is [q] whenever [1 + q <> 0].  Reading [q]
    on a lens of one body raises [AttributeError]. *)
Theorem q_read_back_after_init :
  (forall (F : Type) (FO : FloatOps F) (Caustic : Type)
          (a : LensArgs) (q : F) (s : num F),
      arg_q a = Some (Scalar q) -> arg_s a = Some s ->
      arg_epsilon a = None -> arg_mass_2 a = None -> arg_mass a = None ->
      exists self : @Lens F Caustic,
        __init__ Caustic a = Ok self /\
        LensPy.q self
        = Ok [f_div (f_div q (f_add (f_add f_zero f_one) q))
                    (f_div f_one (f_add (f_add f_zero f_one) q))]) /\
  (forall (Caustic : Type) (q s : R),
      (1 + q <> 0)%R ->
      exists self : @Lens R Caustic,
        __init__ Caustic (args_q_s q s) = Ok self /\
        LensPy.q self = Ok [q]) /\
  (forall (F : Type) (FO : FloatOps F) (Caustic : Type) (mass : F),
      exists self : @Lens F Caustic,
        __init__ Caustic (args_mass mass) = Ok self /\
        LensPy.q self = Raise (AttributeError "Lens has only one body")) /\
  (forall (F : Type) (FO : FloatOps F) (Caustic : Type)
          (self : @Lens F Caustic) (e0 : F),
      _epsilon self = Some [e0] ->
      LensPy.q self = Raise (AttributeError "Lens has only one body")).
Proof.
  split; [|split; [|split]].
  - intros F FO Caustic a q s Hq Hs He Hm2 Hm.
    destruct (init_q_s_epsilon Caustic a Hq Hs He Hm2 Hm)
      as (self & Hi & He' & _).
    exists self. split; [exact Hi|].
    apply q_of_two_bodies. exact He'.
  - intros Caustic q s Hq.
    destruct (init_q_s_epsilon Caustic (args_q_s q s) (q := q)
                (s := Scalar s) eq_refl eq_refl eq_refl eq_refl eq_refl)
      as (self & Hi & He' & _).
    exists self. split; [exact Hi|].
    rewrite (q_of_two_bodies self He'). unfold one_plus. cbn.
    do 2 f_equal. field. lra.
  - intros F FO Caustic mass.
    destruct (init_mass_epsilon Caustic mass) as (self & Hi & He).
    exists self. split; [exact Hi|].
    apply q_of_one_body with (e0 := f_one). exact He.
  - intros F FO Caustic self e0 He.
    apply q_of_one_body with (e0 := e0). exact He.
Qed.

(** [lens = Lens(q=0.01, s=1.0); lens.caustic; lens.caustic] *)
Lemma caustic_is_computed_at_every_access_witness :
  exists self : @Lens R unit,
    __init__ unit (args_q_s (1 / 100) 1)%R = Ok self /\
    caustic (@_calculate_caustics R unit) self = (None, self, 1%nat) /\
    ~ memoized_once (@_calculate_caustics R unit) self.
Proof.
  eexists. split; [reflexivity|].
  refine (let T := @caustic_is_computed_at_every_access R _ unit
                     (args_q_s (1 / 100) 1)%R _ eq_refl in
          conj (proj1 T) (proj1 (proj2 T))).
Defined.

Lemma q_read_back_after_init_witness :
  exists self : @Lens R unit,
    __init__ unit (args_q_s (6 / 10) 1)%R = Ok self /\
    LensPy.q self = Ok [(6 / 10)%R].
Proof.
  exact (proj1 (proj2 q_read_back_after_init) unit (6 / 10)%R 1%R
           ltac:(lra)).
Defined.

(** C9 as stated fails in binary64: [Lens(q=0.6, s=1.0)] stores the
    fractions [0.625] and [0.37499999999999994], and [q] reads back as
    [0.5999999999999999], one unit in the last place below the [0.6]
    supplied. *)
Lemma q_read_back_binary64_counterexample :
  exists self : @Lens float unit,
    __init__ unit (args_q_s 0x1.3333333333333p-1 1)%float = Ok self /\
    _epsilon self = Some [0x1.4p-1; 0x1.7ffffffffffffp-2]%float /\
    LensPy.q self = Ok [0x1.3333333333332p-1]%float /\
    PrimFloat.eqb 0x1.3333333333332p-1 0x1.3333333333333p-1 = false.
Proof.
  eexists. split; [vm_compute; reflexivity|].
  split; [vm_compute; reflexivity|].
  split; vm_compute; reflexivity.
Qed.

End LensClaims.

(* ================================================================== *)
(** * Properties of model.py *)
(* ================================================================== *)

Module ModelFacts.
Import Py ModelPy ModelMore.

Section WithImports.

Context {F : Type} {I : Imports F}.

#[local] Abbreviation Parameters := (ModelParameters F Properties).

(** ** Outcomes *)

Lemma bind_raise {A B} (r : result A) (k : A -> result B) (e : exn) :
  bind r k = Raise e ->
  r = Raise e \/ exists a, r = Ok a /\ k a = Raise e.
Proof.
  destruct r as [a|e']; cbn; intros H.
  - right. exists a. split; [reflexivity | exact H].
  - left. injection H as <-. reflexivity.
Qed.

Lemma bind_ok {A B} (r : result A) (k : A -> result B) (b : B) :
  bind r k = Ok b -> exists a, r = Ok a /\ k a = Ok b.
Proof.
  destruct r as [a|e']; cbn; intros H; [|discriminate].
  exists a. split; [reflexivity | exact H].
Qed.

Lemma inside_raises {A} (callee : string) (r : result A) (e : exn) :
  inside callee r = Raise e -> raised_inside e = true.
Proof.
  destruct r as [a|e']; cbn; intros H; [discriminate|].
  injection H as <-. reflexivity.
Qed.

Lemma not_ok_raises {A} (r : result A) :
  is_ok r = false -> exists e, r = Raise e.
Proof. destruct r as [a|e]; [discriminate|]. exists e. reflexivity. Qed.

(** ** The properties *)

Lemma get_set_u_0 (v : option F) (self : Model F) :
  get_u_0 (set_u_0 v self) = Ok v.
Proof. reflexivity. Qed.

Lemma set_property_ok (name : attribute) (value : pyobj F)
    (self self' : Model F) :
  set_property name value self = Ok self' ->
  exists p, setattr name value (_parameters self) = Ok p /\
            self' = with_parameters p self.
Proof.
  unfold set_property. intros H.
  destruct (setattr name value (_parameters self)) as [p|e];
    [|discriminate].
  injection H as <-. exists p. split; reflexivity.
Qed.

Lemma set_parameters_ok (args : ParameterArgs F) (self self' : Model F) :
  set_parameters args self = Ok self' ->
  exists p, ModelParameters_of args = Ok p /\
            self' = with_parameters p self.
Proof.
  unfold set_parameters. intros H.
  destruct (ModelParameters_of args) as [p|e]; [|discriminate].
  injection H as <-. exists p. split; reflexivity.
Qed.

(** ** [__init__]: the steps that can raise *)

Lemma assign_raises (name : attribute) (x : option F) (p : Parameters)
    (e : exn) :
  assign name x p = Raise e -> raised_inside e = true.
Proof.
  destruct x as [v|]; cbn; [|discriminate]. apply inside_raises.
Qed.

Lemma init_parameters_raises (a : ModelArgs F) (e : exn) :
  init_parameters a = Raise e ->
  raised_inside e = true \/
  (e = TypeError parameters_msg /\ parameters_typed a = false).
Proof.
  unfold init_parameters, parameters_typed.
  destruct (arg_parameters a) as [|p|]; intros H.
  - left. exact (inside_raises _ _ H).
  - discriminate.
  - right. injection H as <-. split; reflexivity.
Qed.

Lemma init_before_q_raises (a : ModelArgs F) (e : exn) :
  init_before_q a = Raise e ->
  raised_inside e = true \/
  (e = TypeError parameters_msg /\ parameters_typed a = false).
Proof.
  unfold init_before_q. intros H.
  apply bind_raise in H. destruct H as [H | (p & _ & H)].
  { exact (init_parameters_raises a H). }
  left.
  apply bind_raise in H. destruct H as [H | (p1 & _ & H)].
  { exact (assign_raises _ _ _ H). }
  apply bind_raise in H. destruct H as [H | (p2 & _ & H)].
  { exact (assign_raises _ _ _ H). }
  apply bind_raise in H. destruct H as [H | (p3 & _ & H)].
  { exact (assign_raises _ _ _ H). }
  exact (assign_raises _ _ _ H).
Qed.

Lemma unpack_q_not_sequence (q : pyobj F) :
  is_list_or_array q = false -> unpack_q q = Ok q.
Proof. destruct q; cbn; intros H; try discriminate; reflexivity. Qed.

Lemma unpack_q_many (items : list (pyobj F)) :
  (1 < List.length items)%nat ->
  unpack_q (OList items) = Raise (NotImplementedError too_many_q_msg) /\
  unpack_q (ONdarray items) = Raise (NotImplementedError too_many_q_msg).
Proof.
  intros H. apply Nat.ltb_lt in H. unfold unpack_q. rewrite H.
  split; reflexivity.
Qed.

Lemma q_after_raises (a : ModelArgs F) (e : exn) :
  q_after a = Raise e ->
  is_list_or_array (arg_q a) = true /\
  (e = NotImplementedError too_many_q_msg \/
   (exists m, e = IndexError m) \/ (exists m, e = TypeError m)).
Proof.
  unfold q_after, unpack_q.
  destruct (arg_q a) as [|x|t|l|l|l|x]; cbn [given]; try discriminate.
  - destruct (1 <? List.length l)%nat.
    + intros H. injection H as <-. split; [reflexivity|]. left.
      reflexivity.
    + destruct l; [|discriminate]. intros H. injection H as <-.
      split; [reflexivity|]. right. left. eexists. reflexivity.
  - destruct (1 <? List.length l)%nat.
    + intros H. injection H as <-. split; [reflexivity|]. left.
      reflexivity.
    + destruct l; [|discriminate]. intros H. injection H as <-.
      split; [reflexivity|]. right. left. eexists. reflexivity.
  - intros H. injection H as <-. split; [reflexivity|]. right. right.
    eexists. reflexivity.
Qed.

Lemma init_q_raises (a : ModelArgs F) (p : Parameters) (e : exn) :
  init_q a p = Raise e ->
  raised_inside e = true \/ q_after a = Raise e.
Proof.
  unfold init_q, q_after.
  destruct (given (arg_q a)); [|discriminate]. intros H.
  apply bind_raise in H. destruct H as [H | (q & _ & H)].
  { right. exact H. }
  apply bind_raise in H. destruct H as [H | (p' & _ & H)];
    [|discriminate].
  left. exact (inside_raises _ _ H).
Qed.

Lemma init_q_ok (a : ModelArgs F) (p p' : Parameters) (q : pyobj F) :
  init_q a p = Ok (q, p') -> q_after a = Ok q.
Proof.
  unfold init_q, q_after.
  destruct (given (arg_q a)).
  - intros H. apply bind_ok in H. destruct H as (q' & Hq & H).
    apply bind_ok in H. destruct H as (p'' & _ & H).
    injection H as <- _. exact Hq.
  - intros H. injection H as <- _. reflexivity.
Qed.

Lemma init_assignments_raises (a : ModelArgs F) (e : exn) :
  init_assignments a = Raise e ->
  raised_inside e = true \/
  (e = TypeError parameters_msg /\ parameters_typed a = false) \/
  q_after a = Raise e.
Proof.
  unfold init_assignments. intros H.
  apply bind_raise in H. destruct H as [H | (p & _ & H)].
  { destruct (init_before_q_raises a H) as [K | K]; [left | right; left];
      exact K. }
  apply bind_raise in H. destruct H as [H | ([q p'] & _ & H)].
  { destruct (init_q_raises a p H) as [K | K]; [left | right; right];
      exact K. }
  apply bind_raise in H. destruct H as [H | (p'' & _ & H)];
    [|discriminate].
  left. exact (assign_raises _ _ _ H).
Qed.

Lemma init_assignments_ok (a : ModelArgs F) (q : pyobj F)
    (p : Parameters) :
  init_assignments a = Ok (q, p) ->
  parameters_typed a = true /\ q_after a = Ok q.
Proof.
  unfold init_assignments. intros H.
  apply bind_ok in H. destruct H as (p0 & H0 & H).
  apply bind_ok in H. destruct H as ([q' p1] & Hq & H).
  apply bind_ok in H. destruct H as (p2 & _ & H).
  injection H as <- _. split.
  - unfold init_before_q in H0. apply bind_ok in H0.
    destruct H0 as (p00 & H0 & _).
    unfold init_parameters in H0. unfold parameters_typed.
    destruct (arg_parameters a); [reflexivity | reflexivity | discriminate].
  - exact (init_q_ok a p0 Hq).
Qed.

Lemma check_s_q_alpha_spec (s : option F) (q : pyobj F)
    (alpha : option F) :
  check_s_q_alpha s q alpha =
  if some_but_not_all s q alpha then Raise (AttributeError sqa_msg)
  else Ok tt.
Proof.
  unfold check_s_q_alpha, some_but_not_all.
  destruct (is_not_None s), (given q), (is_not_None alpha); reflexivity.
Qed.

Lemma init_parallax_raises (a : ModelArgs F) (p : Parameters) (e : exn) :
  init_parallax a p = Raise e ->
  raised_inside e = true \/
  (e = AttributeError par_msg /\ parallax_pair_ok a = false).
Proof.
  unfold init_parallax, parallax_pair_ok. intros H.
  apply bind_raise in H. destruct H as [H | (p' & _ & H)].
  { left. destruct (given (arg_pi_E a)); [|discriminate].
    destruct (arg_pi_E_ref a) as [ref|].
    - apply bind_raise in H. destruct H as [H | (v & _ & H)];
        exact (inside_raises _ _ H).
    - exact (inside_raises _ _ H). }
  destruct (arg_pi_E_N a) as [n|], (arg_pi_E_E a) as [e'|]; cbn.
  - left. destruct (arg_pi_E_ref a) as [ref|];
      apply bind_raise in H; destruct H as [H | (v & _ & H)];
      exact (inside_raises _ _ H).
  - right. injection H as <-. split; reflexivity.
  - right. injection H as <-. split; reflexivity.
  - discriminate.
Qed.

Lemma init_coords_raises (a : ModelArgs F) (e : exn) :
  init_coords a = Raise e ->
  raised_inside e = true \/
  (e = AttributeError coords_msg /\ ra_has_dec a = false).
Proof.
  unfold init_coords, ra_has_dec. intros H.
  apply bind_raise in H. destruct H as [H | (c & _ & H)].
  { left. destruct (arg_coords a) as [[c|text]|]; try discriminate.
    apply bind_raise in H. destruct H as [H | (c & _ & H)];
      [|discriminate].
    exact (inside_raises _ _ H). }
  destruct (arg_ra a) as [ra|], (arg_dec a) as [dec|]; cbn;
    try discriminate.
  - left. apply bind_raise in H. destruct H as [H | (c' & _ & H)];
      [|discriminate].
    exact (inside_raises _ _ H).
  - right. injection H as <-. split; reflexivity.
Qed.

(** What comes after the assignments, as a function of what they leave. *)
Lemma init_after_assignments (a : ModelArgs F) (q : pyobj F)
    (p : Parameters) :
  init_assignments a = Ok (q, p) ->
  __init__ a =
  (_ <- check_s_q_alpha (arg_s a) q (arg_alpha a) ;;
   p <- init_parallax a p ;;
   coords <- init_coords a ;;
   _ <- inside "LimbDarkeningCoeffs" LimbDarkeningCoeffs_new ;;
   Ok {| _parameters := p;
         _t_0_par := arg_t_0_par a;
         _coords := coords;
         ephemerides_file := arg_ephemerides_file a;
         _parallax := {| earth_orbital := true; satellite := true;
                         topocentric := true |};
         _default_magnification_method := "point_source";
         _methods := None |}).
Proof. intros H. unfold __init__. rewrite H. reflexivity. Qed.

Lemma init_assignments_raise (a : ModelArgs F) (e : exn) :
  init_assignments a = Raise e -> __init__ a = Raise e.
Proof. intros H. unfold __init__. rewrite H. reflexivity. Qed.

(** The exceptions [__init__] can raise: those of the classes it calls,
    and those of its own checks, each with the arguments that lead to
    it. *)
Lemma init_raises (a : ModelArgs F) (e : exn) :
  __init__ a = Raise e ->
  raised_inside e = true \/
  (e = TypeError parameters_msg /\ parameters_typed a = false) \/
  q_after a = Raise e \/
  (e = AttributeError sqa_msg /\
   exists q p, init_assignments a = Ok (q, p) /\
               some_but_not_all (arg_s a) q (arg_alpha a) = true) \/
  (e = AttributeError par_msg /\ parallax_pair_ok a = false) \/
  (e = AttributeError coords_msg /\ ra_has_dec a = false).
Proof.
  intros H.
  destruct (init_assignments a) as [[q p]|e'] eqn:Ea.
  2:{ rewrite (init_assignments_raise a Ea) in H. injection H as <-.
      destruct (init_assignments_raises a Ea) as [K | [K | K]];
        [left | right; left | right; right; left]; exact K. }
  rewrite (init_after_assignments a Ea) in H.
  apply bind_raise in H. destruct H as [H | (u & _ & H)].
  { rewrite check_s_q_alpha_spec in H.
    destruct (some_but_not_all (arg_s a) q (arg_alpha a)) eqn:Es;
      [|discriminate].
    injection H as <-. right. right. right. left.
    split; [reflexivity|]. exists q, p. split; [reflexivity | exact Es]. }
  apply bind_raise in H. destruct H as [H | (p' & _ & H)].
  { destruct (init_parallax_raises a p H) as [K | K];
      [left; exact K | right; right; right; right; left; exact K]. }
  apply bind_raise in H. destruct H as [H | (c & _ & H)].
  { destruct (init_coords_raises a H) as [K | K];
      [left; exact K | right; right; right; right; right; exact K]. }
  apply bind_raise in H. destruct H as [H | (u' & _ & H)];
    [|discriminate].
  left. exact (inside_raises _ _ H).
Qed.

Lemma init_ok (a : ModelArgs F) (m : Model F) :
  __init__ a = Ok m -> init_checks a = true.
Proof.
  intros H. unfold init_checks.
  destruct (init_assignments a) as [[q p]|e'] eqn:Ea.
  2:{ rewrite (init_assignments_raise a Ea) in H. discriminate. }
  rewrite (init_after_assignments a Ea) in H.
  destruct (init_assignments_ok a Ea) as [Ht Hq]. rewrite Ht, Hq.
  apply bind_ok in H. destruct H as (u & Hc & H).
  rewrite check_s_q_alpha_spec in Hc.
  destruct (some_but_not_all (arg_s a) q (arg_alpha a)); [discriminate|].
  apply bind_ok in H. destruct H as (p' & Hp & H).
  apply bind_ok in H. destruct H as (c & Hco & _).
  assert (Kp : parallax_pair_ok a = true).
  { destruct (parallax_pair_ok a) eqn:E; [reflexivity|].
    unfold init_parallax in Hp. apply bind_ok in Hp.
    destruct Hp as (p0 & _ & Hp). unfold parallax_pair_ok in E.
    destruct (arg_pi_E_N a), (arg_pi_E_E a); cbn in E;
      discriminate. }
  assert (Kc : ra_has_dec a = true).
  { destruct (ra_has_dec a) eqn:E; [reflexivity|].
    unfold init_coords in Hco. apply bind_ok in Hco.
    destruct Hco as (c0 & _ & Hco). unfold ra_has_dec in E.
    destruct (arg_ra a), (arg_dec a); cbn in E; discriminate. }
  rewrite Kp, Kc. reflexivity.
Qed.

Lemma init_some_but_not_all (a : ModelArgs F) (q : pyobj F)
    (p : Parameters) :
  init_assignments a = Ok (q, p) ->
  some_but_not_all (arg_s a) q (arg_alpha a) = true ->
  __init__ a = Raise (AttributeError sqa_msg).
Proof.
  intros Ha Hs. rewrite (init_after_assignments a Ha).
  rewrite check_s_q_alpha_spec, Hs. reflexivity.
Qed.

Lemma init_too_many_q (a : ModelArgs F) (items : list (pyobj F)) :
  arg_q a = OList items \/ arg_q a = ONdarray items ->
  (1 < List.length items)%nat ->
  is_ok (__init__ a) = false /\
  forall p, init_before_q a = Ok p ->
            __init__ a = Raise (NotImplementedError too_many_q_msg).
Proof.
  intros Hq Hl.
  assert (K : forall p, init_q a p
                        = Raise (NotImplementedError too_many_q_msg)).
  { intros p. unfold init_q.
    destruct (unpack_q_many items Hl) as [H1 H2].
    destruct Hq as [-> | ->]; cbn [given]; [rewrite H1 | rewrite H2];
      reflexivity. }
  unfold __init__, init_assignments.
  destruct (init_before_q a) as [p|e]; cbn [bind].
  - rewrite K. cbn. split; [reflexivity|]. intros p' _. reflexivity.
  - split; [reflexivity|]. intros p' H. discriminate.
Qed.

Lemma init_single_q (a : ModelArgs F) (x : pyobj F) :
  arg_q a = OList [x] \/ arg_q a = ONdarray [x] ->
  given x = true -> is_list_or_array x = false ->
  __init__ a = __init__ (with_arg_q x a).
Proof.
  intros Hq Hg Hl.
  assert (K : forall p, init_q a p = init_q (with_arg_q x a) p).
  { intros p. unfold init_q. cbn [with_arg_q arg_q]. rewrite Hg.
    rewrite (unpack_q_not_sequence x Hl).
    destruct Hq as [-> | ->]; reflexivity. }
  unfold __init__, init_assignments.
  change (init_before_q (with_arg_q x a)) with (init_before_q a).
  destruct (init_before_q a) as [p|e]; cbn [bind]; [|reflexivity].
  rewrite K. reflexivity.
Qed.

(** The (s, q, alpha) error comes out of the (s, q, alpha) check only. *)
Lemma init_raises_sqa (a : ModelArgs F) :
  __init__ a = Raise (AttributeError sqa_msg) ->
  exists q p, init_assignments a = Ok (q, p) /\
              some_but_not_all (arg_s a) q (arg_alpha a) = true.
Proof.
  intros H. apply init_raises in H.
  destruct H as [H | [[H _] | [H | [[_ H] | [[H _] | [H _]]]]]];
    try discriminate.
  - apply q_after_raises in H.
    destruct H as [_ [H | [[m H] | [m H]]]]; discriminate.
  - exact H.
Qed.

(** The error of the coordinates comes out of their check only. *)
Lemma init_raises_coords (a : ModelArgs F) :
  __init__ a = Raise (AttributeError coords_msg) -> ra_has_dec a = false.
Proof.
  intros H. apply init_raises in H.
  destruct H as [H | [[H _] | [H | [[H _] | [[H _] | [_ H]]]]]];
    try discriminate.
  - apply q_after_raises in H.
    destruct H as [_ [H | [[m H] | [m H]]]]; discriminate.
  - exact H.
Qed.

(** When its own checks pass, [__init__] returns or an imported class
    raises. *)
Lemma init_checks_pass (a : ModelArgs F) (e : exn) :
  init_checks a = true -> __init__ a = Raise e -> raised_inside e = true.
Proof.
  unfold init_checks. intros Hc H.
  apply andb_prop in Hc. destruct Hc as [Hc Hra].
  apply andb_prop in Hc. destruct Hc as [Hc Hpar].
  apply andb_prop in Hc. destruct Hc as [Hty Hq].
  apply init_raises in H.
  destruct H as [H | [[_ H] | [H | [[_ H] | [[_ H] | [_ H]]]]]].
  - exact H.
  - rewrite H in Hty. discriminate.
  - rewrite H in Hq. discriminate.
  - destruct H as (q & p & Ha & Hs).
    destruct (init_assignments_ok a Ha) as [_ Hqa].
    rewrite Hqa, Hs in Hq. discriminate.
  - rewrite H in Hpar. discriminate.
  - rewrite H in Hra. discriminate.
Qed.

(** [Model(parameters=p)] and [Model(parameters=p, alpha=alpha)]: what
    [p] holds is not looked at. *)
Lemma init_with_parameters (p : Parameters) :
  __init__ (args_parameters p None) <> Raise (AttributeError sqa_msg) /\
  forall alpha p',
    setattr Attr_alpha (OFloat alpha) p = Ok p' ->
    __init__ (args_parameters p (Some alpha))
    = Raise (AttributeError sqa_msg).
Proof.
  split.
  - intros H. apply init_raises_sqa in H.
    destruct H as (q & p' & Ha & Hs).
    destruct (init_assignments_ok _ Ha) as [_ Hq].
    cbn in Hq. injection Hq as <-. discriminate.
  - intros alpha p' Hp.
    apply init_some_but_not_all with (q := ONone) (p := p');
      [|reflexivity].
    unfold init_assignments, init_before_q, init_q, assign. cbn.
    rewrite Hp. reflexivity.
Qed.

Lemma init_not_sequence (a : ModelArgs F) :
  is_list_or_array (arg_q a) = false ->
  __init__ a <> Raise (NotImplementedError too_many_q_msg).
Proof.
  intros Hl H. apply init_raises in H.
  destruct H as [H | [[H _] | [H | [[H _] | [[H _] | [H _]]]]]];
    try discriminate.
  apply q_after_raises in H. destruct H as [H _].
  rewrite H in Hl. discriminate.
Qed.

End WithImports.

End ModelFacts.
Module ModelClaims.
Import Py ModelPy ModelMore ModelFacts Examples.
Import RealArith.

(** C5, as amended.  The parameter object of a model is not immutable:
    [Model] has a public setter for each of its defining fields, and
    [set_parameters].  Assigning [u_0] stores the value in the parameter
    object, where it reads back, and leaves the rest of the object and of
    the model as they were.  Assigning [t_0], [t_E], [rho], [s], [q],
    [alpha], [pi_E], [pi_E_N] or [pi_E_E] hands the value to the
    parameter object, and [set_parameters] replaces the parameter object
    by a new one built from its arguments; when they return, the model
    holds the object the parameter class returned and is otherwise
    unchanged. *)
Theorem parameters_are_mutable :
  forall (F : Type) (I : Imports F) (self : Model F),
    (forall v,
        get_u_0 (set_u_0 v self) = Ok v /\
        properties (parameters (set_u_0 v self))
        = properties (parameters self) /\
        set_u_0 v self
        = with_parameters (parameters (set_u_0 v self)) self) /\
    (forall name value self',
        set_property name value self = Ok self' ->
        exists p, setattr name value (parameters self) = Ok p /\
                  self' = with_parameters p self) /\
    (forall args self',
        set_parameters args self = Ok self' ->
        exists p, ModelParameters_of args = Ok p /\
                  self' = with_parameters p self).
Proof.
  intros F I self. split; [|split].
  - intros v. split; [apply get_set_u_0|]. split; reflexivity.
  - intros name value self' H. exact (set_property_ok _ _ _ H).
  - intros args self' H. exact (set_parameters_ok _ _ H).
Qed.

(** C6, as amended.  [Model.__init__] checks the keyword arguments [s],
    [q] and [alpha], not what the parameter object holds.  When some but
    not all of the three are passed, [q] being no list and no array,
    construction fails, and once the assignments of the arguments to the
    parameter object have returned it fails with the [AttributeError] of
    the (s, q, alpha) check, the InvalidParameter kind.  The check is
    made on the value [q] is bound to after the handling of [q]: [q]
    itself when it is no list and no array, its item when it is a list
    or an array of one item.  When [q] is a list or an array of more than
    one item, construction fails in the handling of [q], which comes
    first: with [NotImplementedError], the UnsupportedConfiguration kind,
    once the assignments before [q] have returned.  The (s, q, alpha)
    error is raised in no other case: not when all three or none are
    passed, and so not for [Model(parameters=p)], whatever [p] holds,
    while [Model(parameters=p, alpha=..)] raises it once [alpha] is
    assigned. *)
Theorem s_q_alpha_come_together :
  forall (F : Type) (I : Imports F) (a : ModelArgs F),
    (is_list_or_array (arg_q a) = false ->
     some_but_not_all (arg_s a) (arg_q a) (arg_alpha a) = true ->
     is_ok (__init__ a) = false /\
     forall q p, init_assignments a = Ok (q, p) ->
                 __init__ a = Raise (AttributeError sqa_msg)) /\
    error_kind (AttributeError sqa_msg) = Some InvalidParameter /\
    (forall q p,
        init_assignments a = Ok (q, p) ->
        (is_list_or_array (arg_q a) = false -> q = arg_q a) /\
        (forall x, arg_q a = OList [x] \/ arg_q a = ONdarray [x] ->
                   q = x) /\
        (some_but_not_all (arg_s a) q (arg_alpha a) = true ->
         __init__ a = Raise (AttributeError sqa_msg))) /\
    (forall items,
        arg_q a = OList items \/ arg_q a = ONdarray items ->
        (1 < List.length items)%nat ->
        is_ok (__init__ a) = false /\
        (forall p, init_before_q a = Ok p ->
                   __init__ a
                   = Raise (NotImplementedError too_many_q_msg)) /\
        error_kind (NotImplementedError too_many_q_msg)
        = Some UnsupportedConfiguration) /\
    (__init__ a = Raise (AttributeError sqa_msg) ->
     exists q p, init_assignments a = Ok (q, p) /\
                 some_but_not_all (arg_s a) q (arg_alpha a) = true) /\
    (forall p : ModelParameters F Properties,
        __init__ (args_parameters p None)
        <> Raise (AttributeError sqa_msg) /\
        forall alpha p',
          setattr Attr_alpha (OFloat alpha) p = Ok p' ->
          __init__ (args_parameters p (Some alpha))
          = Raise (AttributeError sqa_msg)).
Proof.
  intros F I a.
  assert (Q : forall q p, init_assignments a = Ok (q, p) ->
                          (is_list_or_array (arg_q a) = false ->
                           q = arg_q a) /\
                          (forall x, arg_q a = OList [x]
                                     \/ arg_q a = ONdarray [x] -> q = x)).
  { intros q p Ha. destruct (init_assignments_ok a Ha) as [_ Hq].
    unfold q_after in Hq. split.
    - intros Hl. rewrite (unpack_q_not_sequence _ Hl) in Hq.
      destruct (arg_q a); cbn in Hq; injection Hq as <-; reflexivity.
    - intros x [E | E]; rewrite E in Hq; cbn in Hq; injection Hq as <-;
        reflexivity. }
  split; [|split; [|split; [|split; [|split]]]].
  - intros Hl Hs.
    assert (K : forall q p, init_assignments a = Ok (q, p) ->
                            __init__ a = Raise (AttributeError sqa_msg)).
    { intros q p Ha. apply init_some_but_not_all with (q := q) (p := p);
        [exact Ha|].
      rewrite (proj1 (Q q p Ha) Hl). exact Hs. }
    split; [|exact K].
    destruct (init_assignments a) as [[q p]|e] eqn:Ea.
    + rewrite (K q p eq_refl). reflexivity.
    + rewrite (init_assignments_raise a Ea). reflexivity.
  - reflexivity.
  - intros q p Ha. destruct (Q q p Ha) as [Q1 Q2].
    split; [exact Q1|]. split; [exact Q2|].
    intros Hs. exact (init_some_but_not_all a Ha Hs).
  - intros items Hq Hl.
    destruct (init_too_many_q a Hq Hl) as [H1 H2].
    split; [exact H1|]. split; [exact H2 | reflexivity].
  - apply init_raises_sqa.
  - intros p. exact (init_with_parameters p).
Qed.

(** C7, as amended.  When [q] is a list or an array of more than one
    item, construction fails: with [NotImplementedError], the
    UnsupportedConfiguration kind, once the assignments that come before
    the handling of [q] have returned.  A list or an array of one item is
    unpacked to that item, and when the item is itself neither [None],
    a list nor an array, [__init__] does what it does for the item given
    as [q].  A value of another type, a tuple among them, is not
    inspected: it is handed to the parameter object as it is, whatever
    its length, and the [NotImplementedError] of [__init__] is not
    raised. *)
Theorem q_sequence_of_more_than_one :
  forall (F : Type) (I : Imports F) (a : ModelArgs F),
    (forall items,
        arg_q a = OList items \/ arg_q a = ONdarray items ->
        (1 < List.length items)%nat ->
        is_ok (__init__ a) = false /\
        (forall p, init_before_q a = Ok p ->
                   __init__ a
                   = Raise (NotImplementedError too_many_q_msg)) /\
        error_kind (NotImplementedError too_many_q_msg)
        = Some UnsupportedConfiguration) /\
    (forall x,
        arg_q a = OList [x] \/ arg_q a = ONdarray [x] ->
        unpack_q (arg_q a) = Ok x /\
        (forall p, init_q a p
                   = (p' <- inside "ModelParameters"
                              (setattr Attr_q x p) ;;
                      Ok (x, p'))) /\
        (given x = true -> is_list_or_array x = false ->
         __init__ a = __init__ (with_arg_q x a))) /\
    (is_list_or_array (arg_q a) = false ->
     unpack_q (arg_q a) = Ok (arg_q a) /\
     (forall p, given (arg_q a) = true ->
                init_q a p
                = (p' <- inside "ModelParameters"
                           (setattr Attr_q (arg_q a) p) ;;
                   Ok (arg_q a, p'))) /\
     __init__ a <> Raise (NotImplementedError too_many_q_msg)).
Proof.
  intros F I a. split; [|split].
  - intros items Hq Hl.
    destruct (init_too_many_q a Hq Hl) as [H1 H2].
    split; [exact H1|]. split; [exact H2 | reflexivity].
  - intros x Hq. split; [|split].
    + destruct Hq as [-> | ->]; reflexivity.
    + intros p. unfold init_q. destruct Hq as [-> | ->]; reflexivity.
    + intros Hg Hl. exact (init_single_q a Hq Hg Hl).
  - intros Hl. split; [|split].
    + exact (unpack_q_not_sequence _ Hl).
    + intros p Hg. unfold init_q.
      rewrite Hg, (unpack_q_not_sequence _ Hl). reflexivity.
    + exact (init_not_sequence a Hl).
Qed.

(** C10.  [Model.magnification] treats a float [t] as the array [[t]] and
    a list as the array of its elements; any other argument raises
    [TypeError] with no collaborator called.  The array the method works
    on is [[t]] for a float [t] and the very elements, in order, of a
    list or an array: it is what the satellite ephemerides (when no
    satellite coordinates are given and an ephemerides file is set) and
    then the magnification curve are called on, and the outcome is that
    of the curve, or the exception of the ephemerides.  When the curve
    returns one value per epoch, the array returned for a float has
    length 1. *)
Theorem magnification_normalizes_time :
  forall (F : Type) (I : Imports F) (SatCoords : Type)
         (sat_get : string -> list F -> result SatCoords)
         (curve : list F -> ModelParameters F Properties -> Parallax ->
                  option F -> option SkyCoord -> option SatCoords -> F ->
                  option (list (method_token F)) -> string ->
                  result (list F))
         (self : Model F) (sat : option SatCoords) (gamma : F),
    let mag := magnification sat_get curve self in
    let curve_on := fun (time : list F) (sat : option SatCoords) =>
      curve time (_parameters self) (_parallax self) (_t_0_par self)
        (_coords self) sat gamma (_methods self)
        (_default_magnification_method self) in
    (forall t, mag (VFloat t) sat gamma = mag (VNdarray [t]) sat gamma) /\
    (forall l, mag (VList l) sat gamma = mag (VNdarray l) sat gamma) /\
    (forall time, is_time_like time = false ->
       mag time sat gamma
       = ([], Raise (TypeError "time must be a float, list, or np.ndarray")))
    /\
    (forall t, sat <> None \/ ephemerides_file self = None ->
       mag (VFloat t) sat gamma
       = ([CallMagnificationCurve], curve_on [t] sat)) /\
    ((forall time p par t0 c s g m d out,
         curve time p par t0 c s g m d = Ok out ->
         List.length out = List.length time) ->
     forall t calls out,
       mag (VFloat t) sat gamma = (calls, Ok out) ->
       List.length out = 1%nat) /\
    (forall t : F, time_as_array (VFloat t) = Ok [t]) /\
    (forall l : list F, time_as_array (VList l) = Ok l /\
                        time_as_array (VNdarray l) = Ok l) /\
    (forall (time : pyval F) (l : list F),
        time_as_array time = Ok l ->
        mag time sat gamma
        = match sat, ephemerides_file self with
          | Some c, _ => ([CallMagnificationCurve], curve_on l (Some c))
          | None, None => ([CallMagnificationCurve], curve_on l None)
          | None, Some f =>
              match sat_get f l with
              | Ok c => ([CallSatelliteSkyCoord; CallMagnificationCurve],
                         curve_on l (Some c))
              | Raise e => ([CallSatelliteSkyCoord], Raise e)
              end
          end).
Proof.
  intros F I SatCoords sat_get curve self sat gamma mag curve_on.
  unfold mag, curve_on.
  split; [|split; [|split; [|split; [|split; [|split; [|split]]]]]].
  - reflexivity.
  - reflexivity.
  - intros time H. destruct time; try discriminate; reflexivity.
  - intros t H. unfold magnification. cbn [time_as_array].
    destruct sat as [c|].
    + reflexivity.
    + destruct H as [H | H]; [congruence|].
      unfold get_satellite_coords. rewrite H. reflexivity.
  - intros Hlen t calls out. unfold magnification. cbn [time_as_array].
    destruct (match sat with
              | Some c => ([], Ok (Some c))
              | None => get_satellite_coords sat_get self [t]
              end) as [cs [sc|e]]; intros H.
    + injection H as _ H. apply Hlen in H. exact H.
    + discriminate.
  - reflexivity.
  - intros l. split; reflexivity.
  - intros time l H. unfold magnification. rewrite H.
    destruct sat as [c|]; [reflexivity|].
    unfold get_satellite_coords.
    destruct (ephemerides_file self) as [f|]; [|reflexivity].
    destruct (sat_get f l) as [c|e]; reflexivity.
Qed.

(* ---------------------------------------------------------------- *)
(** ** Instances *)

Local Open Scope R_scope.

(** C5 as stated fails: whatever the parameter class does, [model.u_0 = 1]
    followed by [model.u_0 = 2] changes the impact parameter the model
    reads back from 1 to 2; so it is for [Model(t_0=300., u_0=1.,
    t_E=500.)] followed by [model.u_0 = 2.], with a parameter class that
    keeps what it is assigned. *)
Lemma parameters_are_not_immutable :
  (forall (I : Imports R) (self : Model R),
      get_u_0 (set_u_0 (Some 1) self) = Ok (Some 1) /\
      get_u_0 (set_u_0 (Some 2) (set_u_0 (Some 1) self)) = Ok (Some 2)) /\
  (exists m : Model R,
      __init__ (args_of (Some 300) (Some 1) (Some 500) None ONone None)
      = Ok m /\
      get_u_0 m = Ok (Some 1) /\
      get_u_0 (set_u_0 (Some 2) m) = Ok (Some 2)) /\
  Some 2 <> Some 1 :> option R.
Proof.
  split; [|split].
  - intros I self. split; reflexivity.
  - eexists. split; [reflexivity|]. split; reflexivity.
  - intros H. injection H as H. lra.
Qed.

Lemma parameters_are_mutable_witness :
  exists m : Model R,
    __init__ (args_of (Some 300) (Some 1) (Some 500) None ONone None)
    = Ok m /\
    get_u_0 (set_u_0 (Some 2) m) = Ok (Some 2) /\
    (exists m', set_t_0 (OFloat 301) m = Ok m' /\
                exists p, setattr Attr_t_0 (OFloat 301) (parameters m)
                          = Ok p /\
                          m' = with_parameters p m).
Proof.
  eexists. split; [reflexivity|]. split.
  - exact (proj1 (proj1 (parameters_are_mutable _) (Some 2))).
  - eexists. split; [reflexivity|].
    exact (proj1 (proj2 (parameters_are_mutable _))
             Attr_t_0 (OFloat 301) _ eq_refl).
Defined.

(** C6 as stated fails.  [Model(s=1.0, q=[0.1, 0.2])] passes [s] and [q]
    but not [alpha], and once [s] is assigned the error raised is the
    [NotImplementedError] of the handling of [q], not the (s, q, alpha)
    error.  And what the parameter object holds does not count: with [p]
    holding [s] alone, [Model(parameters=p)] raises no (s, q, alpha)
    error, and with [p] holding all three, [Model(parameters=p,
    alpha=10.)] raises it once [alpha] is assigned. *)
Lemma some_but_not_all_with_two_q :
  (forall (I : Imports R) p,
      let a := args_of None None None (Some 1)
                 (OList [OFloat (1 / 10); OFloat (2 / 10)]) None in
      some_but_not_all (arg_s a) (arg_q a) (arg_alpha a) = true /\
      is_ok (__init__ a) = false /\
      __init__ a <> Raise (AttributeError sqa_msg) /\
      (init_before_q a = Ok p ->
       __init__ a = Raise (NotImplementedError too_many_q_msg))) /\
  __init__ (args_of None None None (Some 1)
              (OList [OFloat (1 / 10); OFloat (2 / 10)]) None)
  = Raise (NotImplementedError too_many_q_msg) /\
  error_kind (NotImplementedError too_many_q_msg)
  = Some UnsupportedConfiguration /\
  (forall (I : Imports R) (p p' : ModelParameters R Properties),
      __init__ (args_parameters p None)
      <> Raise (AttributeError sqa_msg) /\
      (setattr Attr_alpha (OFloat 10) p = Ok p' ->
       __init__ (args_parameters p (Some 10))
       = Raise (AttributeError sqa_msg))) /\
  (exists p_s p_all m,
      ModelParameters_of
        {| pa_t_0 := Some 300; pa_u_0 := Some 1; pa_t_E := Some 500;
           pa_rho := None; pa_s := Some 1; pa_q := ONone;
           pa_alpha := None; pa_pi_E := ONone; pa_pi_E_N := None;
           pa_pi_E_E := None; pa_pi_E_ref := None |} = Ok p_s /\
      __init__ (args_parameters p_s None) = Ok m /\
      ModelParameters_of
        {| pa_t_0 := Some 300; pa_u_0 := Some 1; pa_t_E := Some 500;
           pa_rho := None; pa_s := Some 1; pa_q := OFloat (1 / 10);
           pa_alpha := Some 0; pa_pi_E := ONone; pa_pi_E_N := None;
           pa_pi_E_E := None; pa_pi_E_ref := None |} = Ok p_all /\
      __init__ (args_parameters p_all (Some 10))
      = Raise (AttributeError sqa_msg)).
Proof.
  split; [|split; [|split; [|split]]].
  - intros I p a.
    destruct (@init_too_many_q R I a
                [OFloat (1 / 10); OFloat (2 / 10)]
                (or_introl eq_refl) ltac:(cbn; apply Nat.lt_succ_diag_r))
      as [H1 H2].
    split; [reflexivity|]. split; [exact H1|]. split; [|exact (H2 p)].
    intros H. apply init_raises_sqa in H. destruct H as (q & p' & Ha & _).
    destruct (init_assignments_ok a Ha) as [_ Hq]. discriminate.
  - reflexivity.
  - reflexivity.
  - intros I p p'. destruct (init_with_parameters p) as [H1 H2].
    split; [exact H1 | exact (H2 10 p')].
  - eexists _, _, _. split; [reflexivity|]. split; [reflexivity|].
    split; reflexivity.
Qed.

Lemma s_q_alpha_come_together_witness :
  let a := args_of (Some 300) (Some 1) (Some 500) (Some 1)
             (OFloat (1 / 100)) None in
  is_ok (__init__ a) = false /\
  __init__ a = Raise (AttributeError sqa_msg) /\
  error_kind (AttributeError sqa_msg) = Some InvalidParameter.
Proof.
  intros a.
  pose proof (s_q_alpha_come_together a) as T.
  destruct (proj1 T eq_refl eq_refl) as [H1 H2].
  split; [exact H1|]. split; [|exact (proj1 (proj2 T))].
  exact (H2 _ _ eq_refl).
Defined.

(** C7 as stated fails for a sequence that is no list and no array:
    [Model(t_0=300., u_0=1., t_E=500., s=1., q=(0.1, 0.2), alpha=270.)]
    hands the tuple of two to the parameter object, whatever the
    parameter class, and does not raise its [NotImplementedError]; with
    a parameter class that keeps what it is assigned the model is
    built. *)
Lemma q_tuple_of_two_is_not_inspected :
  (forall (I : Imports R) (p : ModelParameters R Properties),
      let q := OTuple [OFloat (1 / 10); OFloat (2 / 10)] in
      let a := args_of (Some 300) (Some 1) (Some 500) (Some 1) q
                 (Some 270) in
      init_q a p
      = (p' <- inside "ModelParameters" (setattr Attr_q q p) ;;
         Ok (q, p')) /\
      __init__ a <> Raise (NotImplementedError too_many_q_msg) /\
      forall e, __init__ a = Raise e -> raised_inside e = true) /\
  (exists m : Model R,
      __init__ (args_of (Some 300) (Some 1) (Some 500) (Some 1)
                  (OTuple [OFloat (1 / 10); OFloat (2 / 10)]) (Some 270))
      = Ok m).
Proof.
  split.
  - intros I p q a. split; [reflexivity|]. split.
    + apply init_not_sequence. reflexivity.
    + intros e. apply init_checks_pass. reflexivity.
  - eexists. reflexivity.
Qed.

Lemma q_sequence_of_more_than_one_witness :
  (__init__ (args_of (Some 300) (Some 1) (Some 500) (Some 1)
               (OList [OFloat (1 / 100); OFloat (2 / 100)]) (Some 270))
   = Raise (NotImplementedError too_many_q_msg) /\
   error_kind (NotImplementedError too_many_q_msg)
   = Some UnsupportedConfiguration) /\
  (exists m : Model R,
      __init__ (args_of (Some 300) (Some 1) (Some 500) (Some 1)
                  (OFloat (1 / 100)) (Some 270)) = Ok m /\
      __init__ (args_of (Some 300) (Some 1) (Some 500) (Some 1)
                  (ONdarray [OFloat (1 / 100)]) (Some 270)) = Ok m /\
      __init__ (args_of (Some 300) (Some 1) (Some 500) (Some 1)
                  (OList [OFloat (1 / 100)]) (Some 270)) = Ok m).
Proof.
  split.
  - destruct (proj1 (q_sequence_of_more_than_one
                       (args_of (Some 300) (Some 1) (Some 500) (Some 1)
                          (OList [OFloat (1 / 100); OFloat (2 / 100)])
                          (Some 270)))
                _ (or_introl eq_refl)
                ltac:(cbn; apply Nat.lt_succ_diag_r))
      as (_ & H & K).
    split; [exact (H _ eq_refl) | exact K].
  - eexists. split; [reflexivity|]. split.
    + exact (proj2 (proj2 (proj1 (proj2 (q_sequence_of_more_than_one
               (args_of (Some 300) (Some 1) (Some 500) (Some 1)
                  (ONdarray [OFloat (1 / 100)]) (Some 270))))
               (OFloat (1 / 100)) (or_intror eq_refl)))
             eq_refl eq_refl).
    + exact (proj2 (proj2 (proj1 (proj2 (q_sequence_of_more_than_one
               (args_of (Some 300) (Some 1) (Some 500) (Some 1)
                  (OList [OFloat (1 / 100)]) (Some 270))))
               (OFloat (1 / 100)) (or_introl eq_refl)))
             eq_refl eq_refl).
Defined.

Lemma magnification_normalizes_time_witness :
  exists m : Model R,
    __init__ (args_of (Some 300) (Some 1) (Some 500) None ONone None)
    = Ok m /\
    magnification no_satellite unit_curve m (VFloat 300) None 0
    = ([CallMagnificationCurve], Ok [1]) /\
    magnification no_satellite unit_curve m (VList [299; 300; 301]) None 0
    = ([CallMagnificationCurve], Ok [1; 1; 1]) /\
    magnification no_satellite unit_curve m (VInt 300) None 0
    = ([], Raise (TypeError "time must be a float, list, or np.ndarray")).
Proof.
  eexists. split; [reflexivity|].
  match goal with
  | |- magnification _ _ ?m _ _ _ = _ /\ _ =>
      pose proof (magnification_normalizes_time no_satellite unit_curve
                    m None 0) as T
  end.
  cbv zeta in T. split; [|split].
  - exact (proj1 (proj2 (proj2 (proj2 T))) 300 (or_intror eq_refl)).
  - exact (proj2 (proj2 (proj2 (proj2 (proj2 (proj2 (proj2 T))))))
             (VList [299; 300; 301]) _ eq_refl).
  - exact (proj1 (proj2 (proj2 T)) (VInt 300) eq_refl).
Defined.

End ModelClaims.

(* ================================================================== *)
(** * Properties of the point-lens magnification *)
(* ================================================================== *)

Module PointLensFacts.
Import PointLens.

Local Open Scope R_scope.

Lemma sqrt_u2_4 (u : R) :
  0 < sqrt (u * u + 4) /\ sqrt (u * u + 4) * sqrt (u * u + 4) = u * u + 4.
Proof.
  assert (H : 0 < u * u + 4) by nra.
  split; [apply sqrt_lt_R0; exact H | apply sqrt_sqrt; lra].
Qed.

(** [A(u)^2 * (u^2 (u^2 + 4)) = u^2 (u^2 + 4) + 4], and [A(u) > 1]. *)
Lemma A_square (u : R) :
  0 < u ->
  A u * A u * (u * u * (u * u + 4)) = u * u * (u * u + 4) + 4 /\ 1 < A u.
Proof.
  intros Hu. destruct (sqrt_u2_4 u) as [Hs Hss].
  set (r := sqrt (u * u + 4)) in *.
  assert (Hd : 0 < u * r) by nra.
  assert (HA : A u * (u * r) = u * u + 2).
  { unfold A. fold r. field. nra. }
  assert (Hpos : 0 < A u).
  { unfold A. fold r. apply Rdiv_lt_0_compat; nra. }
  assert (Hsq : A u * A u * (u * u * (u * u + 4))
                = u * u * (u * u + 4) + 4).
  { replace (A u * A u * (u * u * (u * u + 4)))
      with ((A u * (u * r)) * (A u * (u * r))).
    - rewrite HA. ring.
    - rewrite <- Hss. ring. }
  split; [exact Hsq|].
  assert (Hg : 0 < u * u * (u * u + 4)) by nra.
  destruct (Rlt_le_dec 1 (A u)) as [H|H]; [exact H|].
  exfalso.
  assert (A u * A u <= 1) by nra.
  nra.
Qed.

Lemma A_decreasing (u v : R) : 0 < u -> u < v -> A v < A u.
Proof.
  intros Hu Huv.
  assert (Hv : 0 < v) by lra.
  destruct (A_square Hu) as [Eu H1u].
  destruct (A_square Hv) as [Ev H1v].
  set (gu := u * u * (u * u + 4)) in *.
  set (gv := v * v * (v * v + 4)) in *.
  assert (Hgu : 0 < gu) by (unfold gu; nra).
  assert (Hg : gu < gv).
  { unfold gu, gv.
    assert (u * u < v * v) by nra.
    assert (0 < u * u) by nra.
    nra. }
  (* A^2 = 1 + 4 / g *)
  assert (Su : A u * A u = 1 + 4 / gu) by (field_simplify_eq; lra).
  assert (Sv : A v * A v = 1 + 4 / gv) by (field_simplify_eq; lra).
  assert (Hinv : 4 / gv < 4 / gu).
  { unfold Rdiv. apply Rmult_lt_compat_l; [lra|].
    apply Rinv_lt_contravar; nra. }
  destruct (Rlt_le_dec (A v) (A u)) as [H|H]; [exact H|].
  exfalso. assert (A u * A u <= A v * A v) by nra. lra.
Qed.

Lemma A_tends_to_1 (eps : R) :
  0 < eps -> exists M, forall u, M < u -> Rabs (A u - 1) < eps.
Proof.
  intros He. exists (1 + / eps). intros u Hu.
  assert (Hie : 0 < / eps) by (apply Rinv_0_lt_compat; exact He).
  assert (Hu1 : 1 < u) by lra.
  assert (Hu0 : 0 < u) by lra.
  destruct (A_square Hu0) as [E H1].
  rewrite Rabs_pos_eq by lra.
  (* (A - 1) * (A + 1) * g = 4 and g >= 4 u^2 *)
  assert (Heu : 1 < eps * u).
  { assert (eps * / eps = 1) by (apply Rinv_r; lra). nra. }
  assert (Hg : 4 * (u * u) <= u * u * (u * u + 4)) by nra.
  assert (Hx : (A u - 1) * (u * u * (u * u + 4)) < 4) by nra.
  assert (Hy : (A u - 1) * (u * u) < 1) by nra.
  assert (Hz : 1 < eps * (u * u)) by nra.
  assert (Huu : 0 < u * u) by nra.
  apply Rmult_lt_reg_r with (u * u); [exact Huu | lra].
Qed.

(** C8.  For [u > 0], [A(u) = (u^2 + 2) / (u * sqrt (u^2 + 4))] is
    strictly decreasing and tends to 1 as [u] grows without bound; at
    [u = 0] the divisor is zero and the guarded evaluation produces no
    value, while for [u > 0] it produces [A(u)]. *)
Theorem point_lens_magnification_decreasing :
  (forall u v, 0 < u -> u < v -> A v < A u) /\
  (forall eps, 0 < eps ->
     exists M, forall u, M < u -> Rabs (A u - 1) < eps) /\
  (0 * sqrt (0 * 0 + 4) = 0 /\ point_lens_magnification 0 = None) /\
  (forall u, 0 < u ->
     point_lens_magnification u
     = Some ((u * u + 2) / (u * sqrt (u * u + 4)))).
Proof.
  split; [exact A_decreasing|]. split; [exact A_tends_to_1|]. split.
  - split; [ring|]. unfold point_lens_magnification.
    destruct (Req_dec_T 0 0) as [_|H]; [reflexivity | contradiction].
  - intros u Hu. unfold point_lens_magnification.
    destruct (Req_dec_T u 0) as [H|_]; [lra | reflexivity].
Qed.

Lemma point_lens_magnification_decreasing_witness :
  A 2 < A 1 /\
  point_lens_magnification 1 = Some ((1 * 1 + 2) / (1 * sqrt (1 * 1 + 4))).
Proof.
  split.
  - exact (proj1 point_lens_magnification_decreasing 1 2
             ltac:(lra) ltac:(lra)).
  - exact (proj2 (proj2 (proj2 point_lens_magnification_decreasing)) 1
             ltac:(lra)).
Defined.

End PointLensFacts.

(* ================================================================== *)
(** * More properties of causticspoint.py *)
(* ================================================================== *)

Module CausticsPointMore.
Import Py CausticsPoint CausticsPointFacts RealArith Examples.

Section WithArith.

Context {F C : Type} {FO : FloatOps F} {TO : TrigOps F} {CO : ComplexOps F C}.


End WithArith.


End CausticsPointMore.

(* ================================================================== *)
(** * More properties of lens.py *)
(* ================================================================== *)

Module LensMore.
Import Py LensPy LensMass LensFacts RealArith.

Section WithArith.

Context {F : Type} {FO : FloatOps F}.
Variable Caustic : Type.

Abbreviation LensT := (@Lens F Caustic).

Lemma q_setter_epsilon_any (new_q : num F) (self : LensT) :
  _epsilon (q_setter new_q self)
  = Some (map (fun x => f_div x (np_sum (np_insert0 new_q f_one)))
              (np_insert0 new_q f_one)).
Proof.
  unfold q_setter.
  destruct (_ =? _)%Z; [reflexivity|].
  destruct (_total_mass (set_epsilon _ self)); reflexivity.
Qed.

(** X5.  The [q] setter never finds the lens "entirely defined": the
    sizes it compares are those of the same array, one of them minus 1.
    So whenever the total mass is bound, assigning [q] multiplies it by
    [np.sum([1, q...])], also when the lens already had that many
    bodies; an unbound total mass stays unbound. *)
Theorem q_setter_always_rescales_total_mass
    (new_q : num F) (self : LensT) :
  _total_mass (q_setter new_q self)
  = match _total_mass self with
    | Some m => Some (num_scale m (np_sum (np_insert0 new_q f_one)))
    | None => None
    end.
Proof.
  unfold q_setter. rewrite length_map.
  destruct (Z.eqb_spec (Z.of_nat (List.length (np_insert0 new_q f_one)))
              (Z.of_nat (List.length (np_insert0 new_q f_one)) - 1))
    as [E|_]; [lia|].
  destruct self as [c e tm s0 d p]. unfold set_epsilon.
  cbn [_total_mass]. destruct tm; reflexivity.
Qed.

(** X10.  [_change_mass] never returns: it raises, and the lens is as it
    was.  So assigning [mass_1] to a lens whose masses are set, or
    [mass_2] to a lens of two or more bodies, raises [TypeError] and
    changes nothing; assigning [mass_1] to a lens without a total mass
    makes it a lens of that single mass. *)
Theorem change_mass_never_returns (new_mass : F) (self : LensT) :
  (forall index, exists e, _change_mass new_mass index self = Raised e self)
  /\
  (forall t e0 rest,
      _total_mass self = Some t -> _epsilon self = Some (e0 :: rest) ->
      mass_1_setter new_mass self = Raised not_callable self) /\
  (_total_mass self = None ->
     mass_1_setter new_mass self
     = Returned (_set_single_mass new_mass self)) /\
  (forall t e0 e1 rest,
      _total_mass self = Some t ->
      _epsilon self = Some (e0 :: e1 :: rest) ->
      mass_2_setter new_mass self = Raised not_callable self).
Proof.
  split; [|split; [|split]].
  - intros index. unfold _change_mass.
    destruct (_total_mass self); [|eexists; reflexivity].
    destruct (_epsilon self) as [e|]; [|eexists; reflexivity].
    destruct (nth_error e index); eexists; reflexivity.
  - intros t e0 rest Ht He. unfold mass_1_setter, _change_mass.
    rewrite Ht, He. reflexivity.
  - intros Ht. unfold mass_1_setter, _change_mass. rewrite Ht. reflexivity.
  - intros t e0 e1 rest Ht He.
    unfold mass_2_setter, mass_k_setter, _change_mass.
    rewrite He, Ht. reflexivity.
Qed.

(** X11.  Assigning [mass] to a lens that is not of several bodies makes
    it a point lens whose [mass] reads back the value assigned and whose
    [q] raises; on a lens of several bodies the assignment raises
    [TypeError] and changes nothing. *)
Theorem mass_round_trip (new_mass : F) (self : LensT) :
  (match _epsilon self with
   | Some e => (List.length e <= 1)%nat
   | None => True
   end ->
   exists self',
     mass_setter new_mass self = Returned self' /\
     mass self' = Ok (Scalar new_mass) /\
     q self' = Raise (AttributeError "Lens has only one body") /\
     _s self' = _s self /\ _caustic self' = _caustic self) /\
  (forall e, _epsilon self = Some e -> (1 < List.length e)%nat ->
     mass_setter new_mass self = Raised point_lens_only self).
Proof.
  split.
  - intros H. exists (_set_single_mass new_mass self).
    split; [|repeat split; reflexivity].
    unfold mass_setter. destruct (_epsilon self) as [e|]; [|reflexivity].
    destruct (Nat.ltb_spec 1 (List.length e)); [lia | reflexivity].
  - intros e He Hl. unfold mass_setter. rewrite He.
    apply Nat.ltb_lt in Hl. rewrite Hl. reflexivity.
Qed.


End WithArith.

(* ---------------------------------------------------------------- *)
(** ** Exact arithmetic *)

Local Open Scope R_scope.

Lemma np_sum_real (l : list R) : np_sum l = fold_right Rplus 0 l.
Proof.
  unfold np_sum. cbn. apply fold_symmetric; intros; ring.
Qed.

Lemma sum_map_div (l : list R) (d : R) :
  fold_right Rplus 0 (map (fun x => x / d) l) = fold_right Rplus 0 l / d.
Proof.
  induction l as [|x l IH]; cbn.
  - unfold Rdiv. ring.
  - rewrite IH. unfold Rdiv. ring.
Qed.

Lemma sum_map_mul (l : list R) (t : R) :
  fold_right Rplus 0 (map (fun x => t * x) l) = t * fold_right Rplus 0 l.
Proof.
  induction l as [|x l IH]; cbn; [ring | rewrite IH; ring].
Qed.

Lemma sum_app (l1 l2 : list R) :
  fold_right Rplus 0 (l1 ++ l2)
  = fold_right Rplus 0 l1 + fold_right Rplus 0 l2.
Proof.
  induction l1 as [|x l1 IH]; cbn; [ring | rewrite IH; ring].
Qed.

(** X4.  In exact arithmetic the mass fractions the [q] setter stores
    sum to 1, one fraction per body, whenever [1 + sum q] is not 0. *)
Theorem q_setter_fractions_sum_to_one
    (Caustic : Type) (new_q : num R) (self : @Lens R Caustic) :
  np_sum (np_insert0 new_q 1) <> 0 ->
  exists eps,
    _epsilon (q_setter new_q self) = Some eps /\
    List.length eps = List.length (np_insert0 new_q 1) /\
    np_sum eps = 1.
Proof.
  intros H. eexists. split; [apply q_setter_epsilon_any|].
  split; [apply length_map|].
  cbn [f_div f_one R_FloatOps].
  rewrite np_sum_real, sum_map_div, <- np_sum_real.
  field. exact H.
Qed.

Lemma q_setter_fractions_sum_to_one_witness :
  exists eps,
    _epsilon (q_setter (NdArray [1 / 100; 2 / 100])
                {| _caustic := (None : option unit); _epsilon := None;
                   _total_mass := None; _s := None;
                   _distance := None; _a_proj := None |})
    = Some eps /\
    List.length eps = 3%nat /\ np_sum eps = 1.
Proof.
  refine (@q_setter_fractions_sum_to_one unit
            (NdArray [1 / 100; 2 / 100]) _ _).
  unfold np_sum. cbn. lra.
Defined.

Lemma is_zero_real (x : R) : x <> 0 -> f_is_zero x = false.
Proof.
  intros H. cbn. destruct (Req_dec_T x 0); [contradiction | reflexivity].
Qed.

Lemma is_zero_real_0 (x : R) : x = 0 -> f_is_zero x = true.
Proof.
  intros H. cbn. destruct (Req_dec_T x 0); [reflexivity | contradiction].
Qed.

(** [Lens(mass_1=m1, mass_2=m2)] *)
Lemma init_masses (Caustic : Type) (m1 m2 : R) :
  m1 + m2 <> 0 ->
  __init__ Caustic (args_masses m1 m2)
  = Ok {| _caustic := None;
          _epsilon := Some [m1 / (m1 + m2); m2 / (m1 + m2)];
          _total_mass := Some (Scalar (m1 + m2));
          _s := None; _distance := None; _a_proj := None |}.
Proof.
  intros H. unfold __init__. cbn -[f_is_zero].
  rewrite (is_zero_real H). reflexivity.
Qed.

Lemma init_masses_zero (Caustic : Type) (m1 m2 : R) :
  m1 + m2 = 0 ->
  __init__ Caustic (args_masses m1 m2) = Raise division_by_zero.
Proof.
  intros H. unfold __init__. cbn -[f_is_zero].
  rewrite (is_zero_real_0 H). reflexivity.
Qed.

(** X6.  In exact arithmetic [Lens(mass_1=m1, mass_2=m2)] with
    [m1 + m2 <> 0] has total mass [m1 + m2], reads [mass_1] and [mass_2]
    back as given and, when [m1 <> 0], has mass ratio [m2 / m1]. *)
Theorem masses_read_back (Caustic : Type) (m1 m2 : R) :
  m1 + m2 <> 0 ->
  exists self : @Lens R Caustic,
    __init__ Caustic (args_masses m1 m2) = Ok self /\
    total_mass self = Ok (Scalar (m1 + m2)) /\
    mass_1 self = Ok (Scalar m1) /\
    mass_2 self = Ok (Scalar m2) /\
    (m1 <> 0 -> q self = Ok [m2 / m1]).
Proof.
  intros H. eexists. split; [apply init_masses; exact H|].
  split; [reflexivity|].
  unfold mass_1, mass_2, mass_at, q. cbn.
  split; [do 2 f_equal; field; exact H|].
  split; [do 2 f_equal; field; exact H|].
  intros H1. do 2 f_equal. field. split; assumption.
Qed.

Lemma masses_read_back_witness :
  exists self : @Lens R unit,
    __init__ unit (args_masses 1 (1 / 1000)) = Ok self /\
    total_mass self = Ok (Scalar (1 + 1 / 1000)) /\
    mass_1 self = Ok (Scalar 1) /\
    mass_2 self = Ok (Scalar (1 / 1000)) /\
    (1 <> 0 -> q self = Ok [1 / 1000 / 1]).
Proof. exact (@masses_read_back unit 1 (1 / 1000) ltac:(lra)). Defined.

(** X7.  In exact arithmetic [Lens(mass_1=m1, q=q, s=s)] with
    [1 + q <> 0] has total mass [m1 * (1 + q)], so that [mass_1] reads
    back [m1], [mass_2] reads [m1 * q] and [q] reads [q]. *)
Theorem primary_mass_and_ratio (Caustic : Type) (m1 q s : R) :
  1 + q <> 0 ->
  exists self : @Lens R Caustic,
    __init__ Caustic (args_mass_1_q_s m1 q s) = Ok self /\
    total_mass self = Ok (Scalar (m1 * (1 + q))) /\
    mass_1 self = Ok (Scalar m1) /\
    mass_2 self = Ok (Scalar (m1 * q)) /\
    LensPy.q self = Ok [q].
Proof.
  intros H. eexists. split; [reflexivity|].
  split; [reflexivity|].
  unfold mass_1, mass_2, mass_at, LensPy.q. cbn.
  split; [do 2 f_equal; field; lra|].
  split; [do 2 f_equal; field; lra|].
  do 2 f_equal. field. lra.
Qed.

Lemma primary_mass_and_ratio_witness :
  exists self : @Lens R unit,
    __init__ unit (args_mass_1_q_s 1 (1 / 100) 1) = Ok self /\
    total_mass self = Ok (Scalar (1 * (1 + 1 / 100))) /\
    mass_1 self = Ok (Scalar 1) /\
    mass_2 self = Ok (Scalar (1 * (1 / 100))) /\
    LensPy.q self = Ok [1 / 100].
Proof.
  exact (@primary_mass_and_ratio unit 1 (1 / 100) 1 ltac:(lra)).
Defined.

(** X9.  Adding the secondary afterwards gives the lens built with both
    masses: when [m1 + m2] is not zero, [Lens(mass=m1)] followed by
    [lens.mass_2 = m2] is, in exact arithmetic, the lens
    [Lens(mass_1=m1, mass_2=m2)]; when [m1 + m2] is zero both ways raise
    [ZeroDivisionError]. *)
Theorem adding_the_secondary (Caustic : Type) (m1 m2 : R) :
  exists single : @Lens R Caustic,
    __init__ Caustic (args_mass m1) = Ok single /\
    (m1 + m2 <> 0 ->
       exists both,
         __init__ Caustic (args_masses m1 m2) = Ok both /\
         mass_2_setter m2 single = Returned both) /\
    (m1 + m2 = 0 ->
       __init__ Caustic (args_masses m1 m2) = Raise division_by_zero /\
       exists changed,
         mass_2_setter m2 single = Raised division_by_zero changed).
Proof.
  eexists. split; [reflexivity|]. split.
  - intros H. eexists. split; [apply init_masses; exact H|].
    unfold mass_2_setter, mass_k_setter, _add_mass. cbn -[f_is_zero].
    rewrite (is_zero_real H). cbn.
    unfold set_total_mass, set_epsilon. cbn.
    rewrite Rmult_1_r. reflexivity.
  - intros H. split; [apply init_masses_zero; exact H|].
    unfold mass_2_setter, mass_k_setter, _add_mass. cbn -[f_is_zero].
    rewrite (is_zero_real_0 H). cbn. eexists. reflexivity.
Qed.

(** The array [_add_mass] stores, for a scalar total mass. *)
Lemma add_mass_scalar (Caustic : Type) (new_mass t : R) (eps : list R)
    (index : nat) (self : @Lens R Caustic) :
  _total_mass self = Some (Scalar t) -> _epsilon self = Some eps ->
  (index <= List.length eps)%nat -> t + new_mass <> 0 ->
  let e1 := map (fun x => x / (t + new_mass)) (map (fun x => t * x) eps) in
  let e2 := firstn index e1 ++ [new_mass / (t + new_mass)]
            ++ skipn index e1 in
  _add_mass new_mass index self
  = Returned (set_total_mass (Scalar (t + new_mass))
                (set_epsilon e2 (set_epsilon e1 self))).
Proof.
  intros Ht He Hi H0 e1 e2. unfold _add_mass. rewrite Ht, He.
  cbn -[f_is_zero]. rewrite (is_zero_real H0). cbn.
  unfold np_insert. rewrite !length_map.
  apply Nat.leb_le in Hi. rewrite Hi. reflexivity.
Qed.

(** X8.  In exact arithmetic, [_add_mass] at a position within the
    array, on a lens of scalar total mass [t] with [t + new_mass <> 0],
    returns a lens of total mass [t + new_mass] in which the new body
    has mass [new_mass], every other body keeps its mass (those at or
    after the position move up by one), and the fractions still sum to 1
    if they did. *)
Theorem add_mass_keeps_the_other_masses
    (Caustic : Type) (new_mass t : R) (eps : list R) (index : nat)
    (self : @Lens R Caustic) :
  _total_mass self = Some (Scalar t) -> _epsilon self = Some eps ->
  (index <= List.length eps)%nat -> t + new_mass <> 0 ->
  exists self' eps',
    _add_mass new_mass index self = Returned self' /\
    _total_mass self' = Some (Scalar (t + new_mass)) /\
    _epsilon self' = Some eps' /\
    List.length eps' = S (List.length eps) /\
    mass_at index self' = Ok (Scalar new_mass) /\
    (forall k, (k < index)%nat -> mass_at k self' = mass_at k self) /\
    (forall k, (index <= k < List.length eps)%nat ->
       mass_at (S k) self' = mass_at k self) /\
    (np_sum eps = 1 -> np_sum eps' = 1).
Proof.
  intros Ht He Hi Hn.
  pose proof (@add_mass_scalar Caustic new_mass t eps index self
                Ht He Hi Hn) as E.
  cbv zeta in E.
  set (e1 := map (fun x => x / (t + new_mass)) (map (fun x => t * x) eps))
    in *.
  set (e2 := firstn index e1 ++ [new_mass / (t + new_mass)]
             ++ skipn index e1) in *.
  assert (L1 : List.length e1 = List.length eps)
    by (unfold e1; rewrite !length_map; reflexivity).
  assert (Lf : List.length (firstn index e1) = index)
    by (rewrite length_firstn; lia).
  assert (N1 : forall k x, nth_error eps k = Some x ->
                 nth_error e1 k = Some (t * x / (t + new_mass))).
  { intros k x Hx. unfold e1. rewrite !nth_error_map, Hx. reflexivity. }
  eexists _, e2. split; [exact E|].
  split; [reflexivity|]. split; [reflexivity|].
  split.
  { unfold e2. rewrite !length_app, Lf, length_skipn. cbn. lia. }
  unfold mass_at. cbn [_total_mass _epsilon set_total_mass set_epsilon].
  rewrite Ht, He.
  split; [|split; [|split]].
  - unfold e2. rewrite nth_error_app2 by lia.
    rewrite Lf, Nat.sub_diag. cbn. do 2 f_equal. field. exact Hn.
  - intros k Hk.
    destruct (nth_error eps k) as [x|] eqn:Hx.
    2:{ apply nth_error_None in Hx. lia. }
    unfold e2. rewrite nth_error_app1 by lia.
    rewrite nth_error_firstn.
    destruct (Nat.ltb_spec k index); [|lia].
    rewrite (N1 k x Hx). cbn. do 2 f_equal. field. exact Hn.
  - intros k Hk.
    destruct (nth_error eps k) as [x|] eqn:Hx.
    2:{ apply nth_error_None in Hx. lia. }
    unfold e2. rewrite nth_error_app2 by lia. rewrite Lf.
    replace (S k - index)%nat with (S (k - index)) by lia.
    cbn [app nth_error]. rewrite nth_error_skipn.
    replace (index + (k - index))%nat with k by lia.
    rewrite (N1 k x Hx). cbn. do 2 f_equal. field. exact Hn.
  - intros Hs. rewrite np_sum_real in *. unfold e2.
    rewrite !sum_app. cbn [fold_right].
    assert (S1 : fold_right Rplus 0 (firstn index e1)
                 + fold_right Rplus 0 (skipn index e1)
                 = t / (t + new_mass)).
    { rewrite <- sum_app, firstn_skipn. unfold e1.
      rewrite sum_map_div, sum_map_mul, Hs. unfold Rdiv. ring. }
    replace (fold_right Rplus 0 (firstn index e1)
             + (new_mass / (t + new_mass) + 0
                + fold_right Rplus 0 (skipn index e1)))
      with (fold_right Rplus 0 (firstn index e1)
            + fold_right Rplus 0 (skipn index e1)
            + new_mass / (t + new_mass)) by ring.
    rewrite S1. field. exact Hn.
Qed.

Lemma add_mass_keeps_the_other_masses_witness :
  exists self' eps',
    _add_mass (1 / 1000) 1
      {| _caustic := (None : option unit); _epsilon := Some [1];
         _total_mass := Some (Scalar 1); _s := None; _distance := None;
         _a_proj := None |} = Returned self' /\
    _total_mass self' = Some (Scalar (1 + 1 / 1000)) /\
    _epsilon self' = Some eps' /\
    List.length eps' = 2%nat /\
    mass_at 1 self' = Ok (Scalar (1 / 1000)).
Proof.
  destruct (@add_mass_keeps_the_other_masses unit (1 / 1000) 1 [1] 1%nat
              {| _caustic := None; _epsilon := Some [1];
                 _total_mass := Some (Scalar 1); _s := None;
                 _distance := None; _a_proj := None |}
              eq_refl eq_refl ltac:(cbn; lia) ltac:(lra))
    as (self' & eps' & H1 & H2 & H3 & H4 & H5 & _).
  exists self', eps'. repeat split; assumption.
Defined.


End LensMore.

(* ================================================================== *)
(** * More properties of model.py *)
(* ================================================================== *)

Module ModelInitMore.
Import Py ModelPy ModelFacts ModelMore RealArith Examples.

Section WithImports.

Context {F : Type} {I : Imports F}.

(** X13.  The checks [Model.__init__] makes itself are: [parameters] is
    left out or a [ModelParameters] object; [q] is not a list or an array
    of a length other than 1, nor an array of no dimension; [s], [q] (as
    the handling of [q] leaves it) and [alpha] are all given or all left
    out; [pi_E_N] and [pi_E_E] are both given or both left out; [ra] is
    not given without [dec].  A model is built only when they all pass;
    and when they all pass, [__init__] returns the model or raises an
    exception that comes out of one of the classes it calls. *)
Theorem init_succeeds_exactly_when (a : ModelArgs F) :
  (is_ok (__init__ a) = true -> init_checks a = true) /\
  (init_checks a = true ->
   forall e, __init__ a = Raise e -> raised_inside e = true) /\
  (init_checks a = false ->
   exists e, __init__ a = Raise e).
Proof.
  split; [|split].
  - destruct (__init__ a) as [m|e] eqn:E; [|discriminate].
    intros _. exact (init_ok a E).
  - intros Hc e. exact (init_checks_pass a Hc).
  - intros Hc. apply not_ok_raises.
    destruct (__init__ a) as [m|e] eqn:E; [|reflexivity].
    rewrite (init_ok a E) in Hc. discriminate.
Qed.

(** X14.  A declination given without a right ascension is ignored: with
    [ra] left out, [__init__] does the same whatever [dec] is, and does
    not raise the error of the coordinates. *)
Theorem dec_without_ra_is_ignored (a : ModelArgs F) (dec : option string) :
  arg_ra a = None ->
  __init__ (with_arg_dec dec a) = __init__ a /\
  __init__ a <> Raise (AttributeError coords_msg).
Proof.
  intros Hra. split.
  - unfold __init__, init_assignments, init_before_q, init_parameters,
      init_q, init_parallax, init_coords, with_arg_dec.
    cbn [arg_parameters arg_t_0 arg_u_0 arg_t_E arg_rho arg_s arg_q
         arg_alpha arg_pi_E arg_pi_E_N arg_pi_E_E arg_pi_E_ref
         arg_t_0_par arg_coords arg_ra arg_dec arg_ephemerides_file].
    rewrite Hra. reflexivity.
  - intros H. apply init_raises_coords in H.
    unfold ra_has_dec in H. rewrite Hra in H. discriminate.
Qed.

End WithImports.

Local Open Scope R_scope.

Lemma dec_without_ra_is_ignored_witness :
  let a := args_of (Some 300) (Some 1) (Some 500) None ONone None in
  arg_ra a = None /\
  __init__ (with_arg_dec (Some "-30:00:00"%string) a) = __init__ a /\
  __init__ a <> Raise (AttributeError coords_msg).
Proof.
  intros a. split; [reflexivity|].
  exact (@dec_without_ra_is_ignored R StoredParameters a
           (Some "-30:00:00"%string) eq_refl).
Defined.

End ModelInitMore.

(* ================================================================== *)
(** * Properties of model.py: epochs *)
(* ================================================================== *)

Module ModelTimesMore.
Import Py ModelPy ModelMore RealArith RealArange Examples.

Section WithArith.

Context {F : Type} {FO : FloatOps F} {AO : ArangeOps F} {I : Imports F}.

(** X16.  The plot methods pass their own [n_epochs], [None] by default,
    on to [set_times]: with [times], [dt] and [n_epochs] left out they
    never get their epochs, whatever the model and the time range are.
    When the two ends of the range can be found the exception is the
    [TypeError] of [float(None)]. *)
Theorem plots_need_dt_or_n_epochs (self : Model F)
    (t_range : option (list F)) (t_start t_stop : option F) :
  exists e,
    plot_times None t_range t_start t_stop None None self = TimesRaise e /\
    (forall ab, time_bounds t_range t_start t_stop self = Ok ab ->
                e = float_of_none) /\
    (forall e', time_bounds t_range t_start t_stop self = Raise e' ->
                e = e').
Proof.
  unfold plot_times, set_times.
  destruct (time_bounds _ _ _ _) as [[a b]|e].
  - exists float_of_none. split; [reflexivity|].
    split; [reflexivity | discriminate].
  - exists e. split; [reflexivity|]. split; [discriminate|].
    intros e' H. injection H as <-. reflexivity.
Qed.

End WithArith.

(* ---------------------------------------------------------------- *)
(** ** Exact arithmetic *)

Local Open Scope R_scope.

Lemma R_ceil_IZR (k : Z) : R_ceil (IZR k) = k.
Proof.
  unfold R_ceil. rewrite <- opp_IZR.
  rewrite <- (Int_part_spec (IZR (- k)) (- k)); [lia|].
  split; lra.
Qed.

Lemma f_of_Z_real (n : Z) : f_of_Z n = IZR n.
Proof.
  unfold f_of_Z. destruct (Z.ltb_spec n 0);
    cbn [f_neg f_of_nat R_FloatOps]; rewrite INR_IZR_INZ, Z2Nat.id by lia.
  - rewrite opp_IZR. ring.
  - reflexivity.
Qed.

Lemma nth_error_map_seq (f : nat -> R) (m i : nat) :
  (i < m)%nat -> nth_error (map f (seq 0 m)) i = Some (f i).
Proof.
  intros H. rewrite nth_error_map, nth_error_seq.
  apply Nat.ltb_lt in H. rewrite H. reflexivity.
Qed.

Section WithImports.

Context {I : Imports R}.

(** X17.  In exact arithmetic, with [dt] left out and [n_epochs = n],
    [set_times] returns [n + 1] epochs when [n] is positive, one more
    than [n_epochs]: the values [a + i * ((b - a) / n)] for
    [i = 0 .. n], from the start [a] to the stop [b] of the range, both
    included.  A negative [n] gives no epoch at all. *)
Theorem set_times_epochs (self : Model R) (t_range : option (list R))
    (t_start t_stop : option R) (a b : R) (n : Z) :
  time_bounds t_range t_start t_stop self = Ok (a, b) ->
  a <> b -> n <> 0%Z ->
  exists t,
    set_times t_range t_start t_stop None (Some n) self = Times t /\
    List.length t = Z.to_nat (n + 1) /\
    (forall i, (i < Z.to_nat (n + 1))%nat ->
       nth_error t i = Some (a + INR i * ((b - a) / IZR n))) /\
    ((0 < n)%Z ->
       nth_error t 0 = Some a /\ nth_error t (Z.to_nat n) = Some b) /\
    ((n < 0)%Z -> t = []).
Proof.
  intros Hb Hab Hn.
  assert (Hn' : IZR n <> 0) by (apply not_0_IZR; exact Hn).
  unfold set_times. rewrite Hb.
  destruct (Z.eqb_spec n 0) as [E|_]; [contradiction|].
  cbv zeta. unfold arange_outcome.
  cbn [f_arange R_ArangeOps f_div f_sub f_add R_FloatOps].
  rewrite f_of_Z_real. unfold R_arange.
  destruct (Req_dec_T ((b - a) / IZR n) 0) as [E|Hdt].
  { exfalso. apply Hab.
    apply (f_equal (fun x => x * IZR n)) in E.
    unfold Rdiv in E. rewrite Rmult_assoc, Rinv_l, Rmult_1_r, Rmult_0_l in E
      by exact Hn'. lra. }
  replace ((b + (b - a) / IZR n - a) / ((b - a) / IZR n)) with (IZR (n + 1)).
  2:{ rewrite plus_IZR. field. split; [exact Hn' | lra]. }
  rewrite R_ceil_IZR.
  eexists. split; [reflexivity|].
  split; [rewrite length_map, length_seq; reflexivity|].
  split; [intros i Hi; apply nth_error_map_seq; exact Hi|].
  split.
  - intros Hpos. split.
    + rewrite nth_error_map_seq by lia. f_equal. cbn [INR]. ring.
    + rewrite nth_error_map_seq by lia. f_equal.
      rewrite INR_IZR_INZ, Z2Nat.id by lia. field. exact Hn'.
  - intros Hneg. replace (Z.to_nat (n + 1)) with 0%nat by lia. reflexivity.
Qed.

End WithImports.

Lemma set_times_epochs_witness :
  exists m : Model R,
    __init__ (args_of (Some 300) (Some 1) (Some 500) None ONone None)
    = Ok m /\
    exists t,
      set_times None None None None (Some 4%Z) m = Times t /\
      List.length t = 5%nat /\
      nth_error t 4 = Some (300 + (1 + 1 + 1) / (1 + 1) * 500).
Proof.
  eexists. split; [reflexivity|].
  match goal with
  | |- exists t, set_times _ _ _ _ _ ?m = _ /\ _ =>
      destruct (@set_times_epochs StoredParameters m None None None
                  (300 - (1 + 1 + 1) / (1 + 1) * 500)
                  (300 + (1 + 1 + 1) / (1 + 1) * 500) 4%Z
                  eq_refl ltac:(lra) ltac:(lia))
        as (t & H1 & H2 & _ & H4 & _)
  end.
  exists t. split; [exact H1|].
  split; [exact H2|]. exact (proj2 (H4 ltac:(lia))).
Defined.

End ModelTimesMore.

(* ================================================================== *)
(** * Properties of model.py: limb-darkening bandpasses *)
(* ================================================================== *)

Module LimbMore.
Import Py ModelPy ModelMore.

Lemma has_bandpass_In (b : string) (l : list string) :
  has_bandpass b l = true <-> In b l.
Proof.
  unfold has_bandpass. destruct (in_dec string_dec b l); split;
    intros H; try reflexivity; try assumption; try discriminate.
  contradiction.
Qed.

Lemma register_In (b x : string) (l : list string) :
  In x (register b l) <-> x = b \/ In x l.
Proof.
  unfold register. destruct (has_bandpass b l) eqn:E.
  - apply has_bandpass_In in E. split; [intros H; right; exact H|].
    intros [-> | H]; assumption.
  - rewrite in_app_iff. cbn. split.
    + intros [H | [H | []]]; [right; exact H | left; symmetry; exact H].
    + intros [-> | H]; [right; left; reflexivity | left; exact H].
Qed.

Lemma register_NoDup (b : string) (l : list string) :
  NoDup l -> NoDup (register b l).
Proof.
  intros H. unfold register. destruct (has_bandpass b l) eqn:E.
  - exact H.
  - apply NoDup_app; [exact H | repeat constructor; intros [] |].
    intros x Hx [<- | []].
    apply has_bandpass_In in Hx. congruence.
Qed.

Section WithLimbDarkening.

Context {F : Type} {I : Imports F}.
Variable LimbDarkeningCoeffs : Type.
Variable ld_new : LimbDarkeningCoeffs.
Variable ld_set_gamma : string -> F -> LimbDarkeningCoeffs ->
                        LimbDarkeningCoeffs.
Variable ld_set_u : string -> F -> LimbDarkeningCoeffs ->
                    LimbDarkeningCoeffs.
Variable ld_gamma : string -> LimbDarkeningCoeffs -> result F.

Abbreviation run := (run_limb_calls ld_set_gamma ld_set_u).

Lemma bandpasses_run_limb_call (self : Limb LimbDarkeningCoeffs)
    (c : limb_call) :
  bandpasses (run_limb_call ld_set_gamma ld_set_u self c)
  = register (call_bandpass c) (bandpasses self).
Proof. destruct c; reflexivity. Qed.

Lemma bandpasses_run (calls : list limb_call)
    (self : Limb LimbDarkeningCoeffs) :
  (NoDup (bandpasses self) -> NoDup (bandpasses (run calls self))) /\
  (forall b, In b (bandpasses (run calls self))
             <-> In b (bandpasses self) \/ In b (map call_bandpass calls)).
Proof.
  revert self. induction calls as [|c calls IH]; intros self.
  - cbn. split; [tauto|]. intros b. tauto.
  - unfold run_limb_calls in *. cbn [fold_left map].
    destruct (IH (run_limb_call ld_set_gamma ld_set_u self c)) as [N M].
    split.
    + intros H. apply N. rewrite bandpasses_run_limb_call.
      apply register_NoDup. exact H.
    + intros b. rewrite M, bandpasses_run_limb_call, register_In.
      cbn [In]. split.
      * intros [[-> | H] | H]; auto.
      * intros [H | [<- | H]]; auto.
Qed.

(** X18.  After any sequence of calls of [set_limb_coef_gamma] and
    [set_limb_coef_u] on a new model, [bandpasses] lists every bandpass
    a coefficient was set for, and only those, each one once. *)
Theorem bandpasses_are_the_bandpasses_set (calls : list limb_call) :
  NoDup (bandpasses (run calls (Limb_new ld_new))) /\
  (forall b, In b (bandpasses (run calls (Limb_new ld_new)))
             <-> In b (map call_bandpass calls)).
Proof.
  destruct (bandpasses_run calls (Limb_new ld_new)) as [N M]. split.
  - apply N. constructor.
  - intros b. rewrite M. cbn. tauto.
Qed.

Variable SatCoords : Type.
Variable satellite_skycoords_get : string -> list F -> result SatCoords.
Variable magnification_curve :
  list F -> ModelParameters F Properties -> Parallax -> option F ->
  option SkyCoord -> option SatCoords -> F ->
  option (list (method_token F)) -> string -> result (list F).

(** X19.  For a dataset with a bandpass, [get_data_magnification] raises
    the [ValueError] of a bandpass not set, whatever the epochs are and
    without calling anything, exactly when none of the calls of
    [set_limb_coef_gamma] and [set_limb_coef_u] made on the model named
    that bandpass; otherwise the coefficient of the bandpass is passed
    on to [magnification]. *)
Theorem unset_bandpass_is_refused (zero : F) (self : Model F)
    (calls : list limb_call) (time : pyval F) (eph : option string)
    (sat : option SatCoords) (b : string) :
  let limb := run calls (Limb_new ld_new) in
  get_data_magnification ld_gamma satellite_skycoords_get
    magnification_curve zero self limb
    {| data_time := time; data_ephemerides_file := eph;
       data_satellite_skycoord := sat; data_bandpass := Some b |}
  = if has_bandpass b (map call_bandpass calls) then
      match ld_gamma b (_limb_darkening_coeffs limb) with
      | Ok gamma =>
          magnification satellite_skycoords_get magnification_curve self
            time match eph with Some _ => sat | None => None end gamma
      | Raise e => ([], Raise e)
      end
    else ([], Raise (bandpass_not_set b)).
Proof.
  intros limb. unfold get_data_magnification.
  cbn [data_bandpass data_time data_ephemerides_file
       data_satellite_skycoord].
  assert (E : has_bandpass b (bandpasses limb)
              = has_bandpass b (map call_bandpass calls)).
  { apply Bool.eq_true_iff_eq. rewrite !has_bandpass_In.
    destruct (bandpasses_run calls (Limb_new ld_new)) as [_ M].
    unfold limb. rewrite M. cbn. tauto. }
  rewrite E. destruct (has_bandpass b (map call_bandpass calls));
    reflexivity.
Qed.

End WithLimbDarkening.

End LimbMore.

(* ================================================================== *)
(** * Properties of model.py: plot keywords *)
(* ================================================================== *)

Module PlotKwargsMore.
Import Py PlotKwargs.

Lemma keys_dict_set {A} (k x : string) (v : A) (d : dict A) :
  In x (keys (dict_set k v d)) <-> x = k \/ In x (keys d).
Proof.
  induction d as [|[k' v'] d IH]; cbn.
  - split; [intros [H | []]; left; symmetry; exact H|].
    intros [-> | []]. left. reflexivity.
  - destruct (String.eqb_spec k k') as [<- | Hne]; cbn.
    + intuition congruence.
    + unfold keys in IH. rewrite IH. tauto.
Qed.

Lemma NoDup_dict_set {A} (k : string) (v : A) (d : dict A) :
  NoDup (keys d) -> NoDup (keys (dict_set k v d)).
Proof.
  induction d as [|[k' v'] d IH]; cbn; intros H.
  - repeat constructor. intros [].
  - destruct (String.eqb_spec k k') as [<- | Hne]; cbn.
    + exact H.
    + inversion H as [|? ? Hn Hd]; subst. constructor.
      * intros Hin. apply (keys_dict_set k k' v d) in Hin.
        destruct Hin as [-> | Hin]; [apply Hne; reflexivity | contradiction].
      * apply IH. exact Hd.
Qed.

Section WithValues.

Variable V : Type.
Variable default_colors : list (pval V).

Lemma fits_dict_set (se : bool) (k : string) (v : pval V)
    (kw : dict (pval V)) :
  ~ In k (foreign_keys se) -> fits se kw -> fits se (dict_set k v kw).
Proof.
  intros Hk [N Fo]. split; [apply NoDup_dict_set; exact N|].
  intros x Hx Hin. apply keys_dict_set in Hin.
  destruct Hin as [-> | Hin]; [exact (Hk Hx) | exact (Fo x Hx Hin)].
Qed.

Lemma marker_key_fits (se : bool) : ~ In (marker_key se) (foreign_keys se).
Proof.
  destruct se; cbn; intros [H | [H | [H | []]]]; discriminate.
Qed.

Lemma size_key_fits (se : bool) : ~ In (size_key se) (foreign_keys se).
Proof.
  destruct se; cbn; intros [H | [H | [H | []]]]; discriminate.
Qed.

Lemma color_fits (se : bool) : ~ In "color"%string (foreign_keys se).
Proof.
  destruct se; cbn; intros [H | [H | [H | []]]]; discriminate.
Qed.

Lemma label_fits (se : bool) : ~ In "label"%string (foreign_keys se).
Proof.
  destruct se; cbn; intros [H | [H | [H | []]]]; discriminate.
Qed.

Lemma other_key_fits (se : bool) (k : string) :
  is_size_alias k = false -> is_marker_alias k = false ->
  ~ In k (foreign_keys se).
Proof.
  unfold is_size_alias, is_marker_alias. intros Hs Hm.
  apply Bool.orb_false_iff in Hs. destruct Hs as [Hs Hs3].
  apply Bool.orb_false_iff in Hs. destruct Hs as [Hs1 Hs2].
  apply Bool.orb_false_iff in Hm. destruct Hm as [Hm1 Hm2].
  apply String.eqb_neq in Hs1, Hs2, Hs3, Hm1, Hm2.
  destruct se; cbn; intros [H | [H | [H | []]]]; subst k; congruence.
Qed.

Lemma take_spec (l : option (list (pval V))) (index : nat) (k : string)
    (kw kw' : dict (pval V)) (se : bool) :
  take l index k kw = Ok kw' -> ~ In k (foreign_keys se) ->
  (fits se kw -> fits se kw') /\
  (forall x, In x (keys kw) -> In x (keys kw')) /\
  (l <> None -> In k (keys kw')).
Proof.
  unfold take. intros H Hk. destruct l as [l|].
  - destruct (nth_error l index) as [v|]; [|discriminate].
    injection H as <-. split; [apply fits_dict_set; exact Hk|].
    split.
    + intros x Hx. apply keys_dict_set. right. exact Hx.
    + intros _. apply keys_dict_set. left. reflexivity.
  - injection H as <-. split; [tauto|]. split; [tauto|].
    intros H. contradiction H. reflexivity.
Qed.

Lemma add_other_spec (se : bool) (kw : dict (pval V))
    (kv : string * pval V) :
  (fits se kw -> fits se (add_other se kw kv)) /\
  (forall x, In x (keys kw) -> In x (keys (add_other se kw kv))).
Proof.
  destruct kv as [k v]. unfold add_other.
  destruct (is_size_alias k) eqn:Es; [|destruct (is_marker_alias k) eqn:Em].
  - split; [apply fits_dict_set, size_key_fits|].
    intros x Hx. apply keys_dict_set. right. exact Hx.
  - split; [apply fits_dict_set, marker_key_fits|].
    intros x Hx. apply keys_dict_set. right. exact Hx.
  - split; [apply fits_dict_set, other_key_fits; assumption|].
    intros x Hx. apply keys_dict_set. right. exact Hx.
Qed.

Lemma fold_add_other_spec (se : bool) (others : dict (pval V))
    (kw : dict (pval V)) :
  (fits se kw -> fits se (fold_left (add_other se) others kw)) /\
  (forall x, In x (keys kw) ->
             In x (keys (fold_left (add_other se) others kw))).
Proof.
  revert kw. induction others as [|kv others IH]; intros kw; cbn.
  - tauto.
  - destruct (IH (add_other se kw kv)) as [I1 I2].
    destruct (add_other_spec se kw kv) as [A1 A2]. split.
    + intros H. apply I1, A1, H.
    + intros x H. apply I2, A2, H.
Qed.

(** X20.  The keywords [_set_plot_kwargs] returns always hold a marker,
    a size and a colour under the names of the plotting function asked
    for ([fmt], [markersize] for [errorbar]; [marker], [s] for
    [scatter]), no key twice, and never a marker or size keyword of the
    other function nor the short form [ms], whatever keywords were
    stored; and the colour list is set from then on. *)
Theorem plot_kwargs_fit_the_plot_function
    (index : nat) (show_errorbars bad_data : bool)
    (pp pp' : PlotProperties V) (kw : dict (pval V)) :
  _set_plot_kwargs default_colors index show_errorbars bad_data pp
  = (pp', Ok kw) ->
  In (marker_key show_errorbars) (keys kw) /\
  In (size_key show_errorbars) (keys kw) /\
  In "color"%string (keys kw) /\
  NoDup (keys kw) /\
  (forall k, In k (foreign_keys show_errorbars) -> ~ In k (keys kw)) /\
  color_list pp' <> None.
Proof.
  unfold _set_plot_kwargs. set (se := show_errorbars).
  set (pp1 := match color_list pp with Some _ => pp | None => _ end).
  set (kw0 := if negb bad_data then _ else _).
  assert (Hc : color_list pp1 <> None).
  { unfold pp1. destruct (color_list pp) eqn:E; [rewrite E|cbn];
      discriminate. }
  assert (Hn : (0 <? n_keys pp1)%nat = true).
  { apply Nat.ltb_lt. unfold n_keys.
    destruct (color_list pp1); [cbn; lia | contradiction Hc; reflexivity]. }
  rewrite Hn.
  assert (H0 : fits se kw0 /\ In (marker_key se) (keys kw0)
               /\ In (size_key se) (keys kw0)).
  { unfold kw0. destruct bad_data; cbn [negb].
    - split; [|split].
      + apply fits_dict_set; [apply size_key_fits|].
        apply fits_dict_set; [apply marker_key_fits|].
        split; [constructor | intros k _ []].
      + apply keys_dict_set. right. apply keys_dict_set. left. reflexivity.
      + apply keys_dict_set. left. reflexivity.
    - split; [|split].
      + apply fits_dict_set; [apply size_key_fits|].
        apply fits_dict_set; [apply marker_key_fits|].
        split; [constructor | intros k _ []].
      + apply keys_dict_set. right. apply keys_dict_set. left. reflexivity.
      + apply keys_dict_set. left. reflexivity. }
  destruct H0 as (F0 & M0 & S0).
  intros H. injection H as <- H. clearbody pp1 kw0.
  destruct (take (color_list pp1) index "color" kw0) as [kw1|] eqn:E1;
    [|discriminate].
  cbn [bind] in H.
  destruct (take (marker_list pp1) index (marker_key se) kw1)
    as [kw2|] eqn:E2; [|discriminate].
  cbn [bind] in H.
  destruct (take (size_list pp1) index (size_key se) kw2)
    as [kw3|] eqn:E3; [|discriminate].
  cbn [bind] in H.
  destruct (take (label_list pp1) index "label" kw3)
    as [kw4|] eqn:E4; [|discriminate].
  cbn [bind] in H. injection H as <-.
  destruct (@take_spec _ _ _ _ _ se E1 (color_fits se)) as (T1 & K1 & C1).
  destruct (@take_spec _ _ _ _ _ se E2 (marker_key_fits se)) as (T2 & K2 & _).
  destruct (@take_spec _ _ _ _ _ se E3 (size_key_fits se)) as (T3 & K3 & _).
  destruct (@take_spec _ _ _ _ _ se E4 (label_fits se)) as (T4 & K4 & _).
  assert (F4 : fits se kw4) by auto.
  assert (In4 : forall x, In x (keys kw0) -> In x (keys kw4)) by auto.
  assert (C4 : In "color"%string (keys kw4)) by auto.
  assert (R : forall kw5 : dict (pval V),
             (fits se kw4 -> fits se kw5) ->
             (forall x, In x (keys kw4) -> In x (keys kw5)) ->
             In (marker_key se) (keys kw5) /\ In (size_key se) (keys kw5) /\
             In "color"%string (keys kw5) /\ NoDup (keys kw5) /\
             (forall k, In k (foreign_keys se) -> ~ In k (keys kw5)) /\
             color_list pp1 <> None).
  { intros kw5 A B. destruct (A F4) as [N Fo]. repeat split; auto. }
  destruct (other_kwargs pp1) as [others|].
  - destruct (fold_add_other_spec se others kw4) as [A B].
    apply R; assumption.
  - apply R; auto.
Qed.

End WithValues.

Lemma plot_kwargs_fit_the_plot_function_witness :
  let stored : PlotProperties unit :=
    _store_plot_properties None None None None
      [("ms"%string, PInt 5); ("marker"%string, PStr "s")]
      (reset_plot_properties unit) in
  let kw := [("fmt"%string, PStr "s"); ("markersize"%string, PInt 5);
             ("color"%string, PStr "C0")] in
  fst (_set_plot_kwargs [PStr "C0"] 0 true false stored)
  = _store_plot_properties (Some [PStr "C0"]) None None None [] stored /\
  snd (_set_plot_kwargs [PStr "C0"] 0 true false stored) = Ok kw /\
  In "fmt"%string (keys kw) /\ ~ In "ms"%string (keys kw).
Proof.
  intros stored kw.
  destruct (@plot_kwargs_fit_the_plot_function unit [PStr "C0"] 0%nat
              true false stored _ kw eq_refl)
    as (H1 & _ & _ & _ & H5 & _).
  split; [reflexivity|]. split; [reflexivity|]. split; [exact H1|].
  apply H5. cbn. auto.
Defined.

End PlotKwargsMore.
